(** * The reconciliation engine of AmitKumarDas/decide

    A shallow embedding of
    - [pkg/client/k8s/v1alpha1/unstructured.go]: the mutation pipeline
      ([UnstructuredUpdater]) and the get-then-create-or-update applier
      ([newResourceApplier], [NewResourceApplier]);
    - the installer of [pkg/install/v1alpha1] ([installErrors],
      [simpleInstaller], [Install]).

    Go functions act on the world outside the program (the cluster, the
    process environment, the heap behind a pointer).  They are embedded as
    state-passing functions over a world type [W] that every definition is
    polymorphic in.  A collaborator is a total function: panics and
    divergence of injected code are outside the model. *)

From Stdlib Require Import NArith Ascii String.
From stdpp Require Import base option list strings gmap.

Local Open Scope string_scope.
Local Open Scope list_scope.

(** ** State-passing computations *)

Definition M (W A : Type) : Type := W -> A * W.

Definition ret {W A} (a : A) : M W A := fun w => (a, w).

Definition bind {W A B} (m : M W A) (k : A -> M W B) : M W B :=
  fun w => let (a, w') := m w in k a w'.

Notation "'doM' p <- c ;; k" :=
  (bind c (fun x => match x with p => k end))
  (at level 100, p pattern, c at next level, right associativity,
   format "'[v' 'doM'  p  <-  c  ;;  '/' k ']'").

(** ** Go errors

    An [error] is an interface value: [nil] or an error object.  Three
    makers of error objects occur in the sources:
    - [fmt.Errorf], a plain message;
    - the API machinery's [StatusError], which carries a status reason;
    - [errors.Wrap] and [errors.Wrapf] of github.com/pkg/errors, which put
      a message (and a stack trace, left out here) around a cause. *)

Inductive StatusReason : Type :=
| StatusReasonUnknown
| StatusReasonNotFound
| StatusReasonAlreadyExists
| StatusReasonServiceUnavailable.

Inductive err : Type :=
| Errorf (msg : string)
| StatusError (reason : StatusReason) (msg : string)
| withStack (cause : err) (msg : string).

Definition error : Type := option err.

#[global] Instance StatusReason_eq_dec : EqDecision StatusReason.
Proof. solve_decision. Defined.

#[global] Instance err_eq_dec : EqDecision err.
Proof. solve_decision. Defined.

(** [errors.Wrap(err, message)]: nil for a nil [err]. *)
Definition Wrap (e : error) (message : string) : error :=
  match e with
  | None => None
  | Some cause => Some (withStack cause message)
  end.

(** [errors.Wrapf(err, "...'%s'", arg)] with the format already printed. *)
Definition Wrapf (e : error) (message : string) : error := Wrap e message.

(** [apierrors.ReasonForError]: the reason of an error object that carries
    an API status, [StatusReasonUnknown] for everything else, nil included.
    The type switch does not look through a wrapping. *)
Definition ReasonForError (e : error) : StatusReason :=
  match e with
  | Some (StatusError reason _) => reason
  | _ => StatusReasonUnknown
  end.

(** [apierrors.IsNotFound] *)
Definition IsNotFound (e : error) : bool :=
  bool_decide (ReasonForError e = StatusReasonNotFound).

(** ** strings.TrimSpace

    A Go string is a sequence of bytes; [strings.TrimSpace] removes the
    leading and trailing runes that [unicode.IsSpace] accepts, decoding
    UTF-8.  The white-space runes and their encodings are
    U+0009..U+000D and U+0020 (one byte), U+0085 and U+00A0 (C2 85, C2 A0),
    U+1680 (E1 9A 80), U+2000..U+200A (E2 80 80 .. E2 80 8A), U+2028,
    U+2029, U+202F (E2 80 A8, E2 80 A9, E2 80 AF), U+205F (E2 81 9F) and
    U+3000 (E3 80 80). *)

Definition bytes (s : string) : list N := N_of_ascii <$> list_ascii_of_string s.

Definition of_bytes (bs : list N) : string :=
  string_of_list_ascii (ascii_of_N <$> bs).

Definition asciiSpace (c : N) : bool :=
  ((9 <=? c) && (c <=? 13) || (c =? 32))%N.

(** Width in bytes of the white-space rune encoded at the head of [bs],
    0 when the head is no white-space rune. *)
Definition spaceWidth (bs : list N) : nat :=
  match bs with
  | c :: rest =>
      if asciiSpace c then 1
      else match c, rest with
           | 194%N, c1 :: _ => if ((c1 =? 133) || (c1 =? 160))%N then 2 else 0
           | 225%N, 154%N :: 128%N :: _ => 3
           | 226%N, 128%N :: c2 :: _ =>
               if ((128 <=? c2) && (c2 <=? 138) || (c2 =? 168) || (c2 =? 169)
                   || (c2 =? 175))%N then 3 else 0
           | 226%N, 129%N :: 159%N :: _ => 3
           | 227%N, 128%N :: 128%N :: _ => 3
           | _, _ => 0
           end
  | [] => 0
  end.

(** Width of the white-space rune that ends a string, given the bytes of
    the string in reverse: the rune is decoded from the nearest byte that
    starts one, and counts only when its encoding reaches the end. *)
Definition spaceWidthLast (rev_bs : list N) : nat :=
  match rev_bs with
  | [] => 0
  | c :: before =>
      if (c <? 128)%N then (if asciiSpace c then 1 else 0)
      else match before with
           | 194%N :: _ => if Nat.eqb (spaceWidth [194%N; c]) 2 then 2 else 0
           | c1 :: c0 :: _ => if Nat.eqb (spaceWidth [c0; c1; c]) 3 then 3 else 0
           | _ => 0
           end
  end.

Fixpoint trimLeft (fuel : nat) (bs : list N) : list N :=
  match fuel with
  | O => bs
  | S fuel' =>
      match spaceWidth bs with
      | O => bs
      | n => trimLeft fuel' (drop n bs)
      end
  end.

Fixpoint trimRightRev (fuel : nat) (rev_bs : list N) : list N :=
  match fuel with
  | O => rev_bs
  | S fuel' =>
      match spaceWidthLast rev_bs with
      | O => rev_bs
      | n => trimRightRev fuel' (drop n rev_bs)
      end
  end.

(** Every round removes at least one byte, so the length of the string is
    fuel enough. *)
Definition TrimSpace (s : string) : string :=
  let l := trimLeft (String.length s) (bytes s) in
  of_bytes (reverse (trimRightRev (length l) (reverse l))).

(** ** pkg/client/k8s/v1alpha1/unstructured.go *)

Module K8s.

(** [schema.GroupVersionResource] *)
Record GroupVersionResource : Type := {
  Group : string;
  Version : string;
  Resource : string;
}.

(** [metav1.GetOptions], of which only the zero value is built here. *)
Record GetOptions : Type := { ResourceVersion : string }.

Definition GetOptions_zero : GetOptions := {| ResourceVersion := "" |}.

(** [unstructured.Unstructured]: the identity fields the sources read,
    and the rest of the document kept as key/value pairs. *)
Record Unstructured : Type := {
  apiVersion : string;
  kind : string;
  name : string;
  namespace : string;
  content : list (string * string);
}.

Definition GetName (u : Unstructured) : string := name u.
Definition GetNamespace (u : Unstructured) : string := namespace u.

(** A [*unstructured.Unstructured]: [None] is the nil pointer. *)
Definition ptr : Type := option Unstructured.

(** type UnstructuredMiddleware.  [O] is the type of what is passed along:
    [ptr] in this package. *)
Definition UnstructuredMiddleware (W O : Type) : Type := O -> M W O.

(** func UnstructuredUpdater: the range loop over [updaters], each
    element run on what the one before it returned. *)
Fixpoint UnstructuredUpdater {W O} (updaters : list (UnstructuredMiddleware W O))
  : UnstructuredMiddleware W O :=
  fun given =>
    match updaters with
    | [] => ret given
    | u :: rest => doM given' <- u given ;; UnstructuredUpdater rest given'
    end.

(** type ResourceCreator, ResourceGetter, ResourceUpdater, ResourceApplier;
    the variadic [subresources] is a list. *)
Definition ResourceCreator (W : Type) : Type :=
  ptr -> list string -> M W (ptr * error).
Definition ResourceGetter (W : Type) : Type :=
  string -> GetOptions -> list string -> M W (ptr * error).
Definition ResourceUpdater (W : Type) : Type :=
  ptr -> list string -> M W (ptr * error).
Definition ResourceApplier (W : Type) : Type :=
  ptr -> list string -> M W (ptr * error).

(** What [dynamic.Resource(gvr).Namespace(namespace)] of client-go gives:
    the three calls to the remote store that the sources make. *)
Record ResourceInterface (W : Type) : Type := {
  Create : ptr -> list string -> M W (ptr * error);
  Update : ptr -> list string -> M W (ptr * error);
  Get : string -> GetOptions -> list string -> M W (ptr * error);
}.
Arguments Create {W}.
Arguments Update {W}.
Arguments Get {W}.

(** [dynamic.Interface], with [Resource(gvr).Namespace(namespace)] as one
    function. *)
Definition DynamicInterface (W : Type) : Type :=
  GroupVersionResource -> string -> ResourceInterface W.

(** type ResourceApplyOptions: a nil function field is [None]. *)
Record ResourceApplyOptions (W : Type) : Type := {
  Getter : option (ResourceGetter W);
  Creator : option (ResourceCreator W);
  Updater : option (ResourceUpdater W);
}.
Arguments Getter {W}.
Arguments Creator {W}.
Arguments Updater {W}.

(** func newResourceApplier.  The closure checks the three primitives
    and the object, then branches on the error of [Getter]: [Creator] when
    it is a not-found, and otherwise the branch that wraps that error and
    returns it with the resource [Getter] gave.  [errors.Wrapf] of a nil
    error is nil.  The source's last statement, the call of [Updater],
    comes after an if/else whose two branches both return, so no run
    reaches it and [updater] is not used below. *)
Definition newResourceApplier {W} (options : ResourceApplyOptions W)
  : ResourceApplier W :=
  fun obj subresources =>
    match Getter options with
    | None =>
        ret (None, Some (Errorf "nil resource getter instance: failed to apply resource"))
    | Some getter =>
    match Creator options with
    | None =>
        ret (None, Some (Errorf "nil resource creator instance: failed to apply resource"))
    | Some creator =>
    match Updater options with
    | None =>
        ret (None, Some (Errorf "nil resource updater instance: failed to apply resource"))
    | Some updater =>
    match obj with
    | None =>
        ret (None, Some (Errorf "nil resource instance: failed to apply resource"))
    | Some o =>
        doM (resource, err) <- getter (GetName o) GetOptions_zero [] ;;
        if IsNotFound err then
          creator obj subresources
        else
          ret (resource,
               Wrapf err ("failed to apply resource '" +:+ GetName o +:+ "'"))
    end end end end.

Section Dynamic.
Context {W : Type}.

(** [NewDynamicGetter()()]: the client of the remote store, or an error.
    Its definition is in another file of the package. *)
Variable NewDynamicGetter : M W (DynamicInterface W * error).

(** func NewResourceCreator *)
Definition NewResourceCreator (gvr : GroupVersionResource) (namespace : string)
  : ResourceCreator W :=
  fun obj subresources =>
    match obj with
    | None =>
        ret (None, Some (Errorf "nil resource instance: failed to create resource"))
    | Some _ =>
        doM (dynamic, err) <- NewDynamicGetter ;;
        match err with
        | Some _ => ret (None, Wrap err "failed to create resource")
        | None => Create (dynamic gvr namespace) obj subresources
        end
    end.

(** func NewResourceGetter *)
Definition NewResourceGetter (gvr : GroupVersionResource) (namespace : string)
  : ResourceGetter W :=
  fun name options subresources =>
    if Nat.eqb (String.length (TrimSpace name)) 0 then
      ret (None, Some (Errorf "missing resource name: failed to get resource"))
    else
      doM (dynamic, err) <- NewDynamicGetter ;;
      match err with
      | Some _ =>
          ret (None, Wrapf err ("failed to get resource '" +:+ name +:+ "'"))
      | None => Get (dynamic gvr namespace) name options subresources
      end.

(** func NewResourceUpdater *)
Definition NewResourceUpdater (gvr : GroupVersionResource) (namespace : string)
  : ResourceUpdater W :=
  fun obj subresources =>
    match obj with
    | None =>
        ret (None, Some (Errorf "nil resource instance: failed to update resource"))
    | Some o =>
        doM (dynamic, err) <- NewDynamicGetter ;;
        match err with
        | Some _ =>
            ret (None,
                 Wrapf err ("failed to update resource '" +:+ GetName o +:+ "'"))
        | None => Update (dynamic gvr namespace) obj subresources
        end
    end.

(** The options that [NewResourceApplier] builds. *)
Definition NewResourceApplyOptions (gvr : GroupVersionResource)
  (namespace : string) : ResourceApplyOptions W :=
  {| Getter := Some (NewResourceGetter gvr namespace);
     Creator := Some (NewResourceCreator gvr namespace);
     Updater := Some (NewResourceUpdater gvr namespace) |}.

(** func NewResourceApplier *)
Definition NewResourceApplier (gvr : GroupVersionResource) (namespace : string)
  : ResourceApplier W :=
  newResourceApplier (NewResourceApplyOptions gvr namespace).
End Dynamic.

(** *** Recording the calls of the primitives

    A primitive is wrapped the way a test double is: it does what the
    wrapped primitive does and notes the call in a log kept beside the
    world. *)
Inductive Call : Type :=
| CallGet (name : string) (options : GetOptions) (subresources : list string)
| CallCreate (obj : ptr) (subresources : list string)
| CallUpdate (obj : ptr) (subresources : list string).

Definition logged {W A} (c : Call) (m : M W A) : M (W * list Call) A :=
  fun '(w, log) => let (a, w') := m w in (a, (w', log ++ [c])).

Definition spyGetter {W} (g : ResourceGetter W) : ResourceGetter (W * list Call) :=
  fun name options subresources =>
    logged (CallGet name options subresources) (g name options subresources).

Definition spyCreator {W} (c : ResourceCreator W) : ResourceCreator (W * list Call) :=
  fun obj subresources => logged (CallCreate obj subresources) (c obj subresources).

Definition spyUpdater {W} (u : ResourceUpdater W) : ResourceUpdater (W * list Call) :=
  fun obj subresources => logged (CallUpdate obj subresources) (u obj subresources).

Definition spyOptions {W} (options : ResourceApplyOptions W)
  : ResourceApplyOptions (W * list Call) :=
  {| Getter := spyGetter <$> Getter options;
     Creator := spyCreator <$> Creator options;
     Updater := spyUpdater <$> Updater options |}.

(** The calls an applier built from [options] makes on [obj], from world
    [w] and an empty log. *)
Definition calls {W} (options : ResourceApplyOptions W) (obj : ptr)
  (subresources : list string) (w : W) : list Call :=
  snd (snd (newResourceApplier (spyOptions options) obj subresources (w, []))).

Definition isCreate (c : Call) : bool :=
  match c with CallCreate _ _ => true | _ => false end.
Definition isUpdate (c : Call) : bool :=
  match c with CallUpdate _ _ => true | _ => false end.

End K8s.

(** ** pkg/install/v1alpha1: the installer *)

Module Installer.
Import K8s.

(** type installErrors *)
Record installErrors : Type := { errors : list error }.

(** func (i *installErrors) addError: the receiver after the call comes
    with the returned list. *)
Definition addError (i : installErrors) (err : error)
  : list error * installErrors :=
  let i' := {| errors := errors i ++ [err] |} in
  (errors i', i').

(** func (i *installErrors) addErrors *)
Definition addErrors (i : installErrors) (errs : list error)
  : list error * installErrors :=
  let i' := fold_left (fun i err => snd (addError i err)) errs i in
  (errors i', i').

(** Events of an install run, for the recording installer below. *)
Inductive Event : Type :=
| EvConfig (name : string)
| EvListArtifacts (version : string)
| EvTransform
| EvUpdate (given : Unstructured)
| EvApply (gvr : GroupVersionResource) (namespace : string) (obj : ptr).

Definition isApply (ev : Event) : bool :=
  match ev with EvApply _ _ _ => true | _ => false end.

Section Install.
(** The types declared in files of the package that are not at hand:
    an entry of [config.Spec.Install], of which the installer reads
    [Version]; what [artifactLister] returns; and
    [WithInstallUnstructuredUpdater]. *)
Context {W Entry ArtifactList WithInstallUnstructuredUpdater : Type}.
Variable Version : Entry -> string.

(** [*InstallConfig], reduced to [config.Spec.Install]. *)
Record InstallConfig : Type := { Spec_Install : list Entry }.

(** type simpleInstaller.  [Install] checks [configGetter] against nil
    and calls the other function fields unchecked, so only the first is
    an option.  [Install] also dereferences every [*Unstructured] it
    gets from [transformer] and from the updaters without a check:
    they are values here. *)
Record simpleInstaller : Type := {
  configGetter : option (string -> M W (InstallConfig * error));
  artifactLister : string -> M W (ArtifactList * error);
  transformer : ArtifactList -> M W (list Unstructured * list error);
  unstructuredUpdaters : list WithInstallUnstructuredUpdater;
  installErrors_ : installErrors;
}.

Definition setErrors (i : simpleInstaller) (e : installErrors) : simpleInstaller :=
  {| configGetter := configGetter i;
     artifactLister := artifactLister i;
     transformer := transformer i;
     unstructuredUpdaters := unstructuredUpdaters i;
     installErrors_ := e |}.

(** The promoted field [i.errors]. *)
Definition errorsOf (i : simpleInstaller) : list error := errors (installErrors_ i).

(** The methods of the embedded [installErrors], promoted. *)
Definition addError' (i : simpleInstaller) (err : error)
  : list error * simpleInstaller :=
  let (errs, e) := addError (installErrors_ i) err in (errs, setErrors i e).

Definition addErrors' (i : simpleInstaller) (errs : list error)
  : list error * simpleInstaller :=
  let (errs', e) := addErrors (installErrors_ i) errs in (errs', setErrors i e).

(** What [Install] calls from outside its file: [env.Get], the constant
    [EnvKeyForInstallConfigName], [WithInstallUnstructuredUpdaterList],
    [GroupVersionResourceFromGVK] and [k8s.NewResourceApplier]. *)
Variable env_Get : string -> M W string.
Variable EnvKeyForInstallConfigName : string.
Variable WithInstallUnstructuredUpdaterList :
  Entry -> list WithInstallUnstructuredUpdater ->
  list (UnstructuredMiddleware W Unstructured).
Variable GroupVersionResourceFromGVK : Unstructured -> GroupVersionResource.
Variable k8s_NewResourceApplier : GroupVersionResource -> string -> ResourceApplier W.

(** The inner loop of [Install]: every instance of one entry goes
    through the entry's updaters and is appended to [allUnstructured]. *)
Fixpoint overrideAll (i : simpleInstaller) (install : Entry)
  (unstructs allUnstructured : list Unstructured) : M W (list Unstructured) :=
  match unstructs with
  | [] => ret allUnstructured
  | unstruct :: rest =>
      let installUpdaters :=
        WithInstallUnstructuredUpdaterList install (unstructuredUpdaters i) in
      let finalUpdater := UnstructuredUpdater installUpdaters in
      doM updated <- finalUpdater unstruct ;;
      overrideAll i install rest (allUnstructured ++ [updated])
  end.

(** The loop of [Install] over [config.Spec.Install]. *)
Fixpoint installAll (i : simpleInstaller) (installs : list Entry)
  (allUnstructured : list Unstructured)
  : M W (simpleInstaller * list Unstructured) :=
  match installs with
  | [] => ret (i, allUnstructured)
  | install :: rest =>
      doM (list, err) <- artifactLister i (Version install) ;;
      match err with
      | Some _ =>
          let i := snd (addError' i (Wrapf err
            ("simple installer failed to list artifacts for version '"
               +:+ Version install +:+ "'"))) in
          installAll i rest allUnstructured
      | None =>
          doM (unstructs, errs) <- transformer i list ;;
          let i := if negb (Nat.eqb (length errs) 0)
                   then snd (addErrors' i errs) else i in
          doM allUnstructured <- overrideAll i install unstructs allUnstructured ;;
          installAll i rest allUnstructured
      end
  end.

(** The last loop of [Install]: one apply for each instance, and its
    error handed to [addError]. *)
Fixpoint applyAll (i : simpleInstaller) (allUnstructured : list Unstructured)
  : M W simpleInstaller :=
  match allUnstructured with
  | [] => ret i
  | unstruct :: rest =>
      let apply := k8s_NewResourceApplier (GroupVersionResourceFromGVK unstruct)
                     (GetNamespace unstruct) in
      doM (_, err) <- apply (Some unstruct) [] ;;
      applyAll (snd (addError' i err)) rest
  end.

(** func (i *simpleInstaller) Install: the returned list and the
    receiver after the call. *)
Definition Install (i : simpleInstaller) : M W (list error * simpleInstaller) :=
  match configGetter i with
  | None =>
      ret (addError' i (Some (Errorf "nil config getter: simple installer failed")))
  | Some getter =>
      doM name <- env_Get EnvKeyForInstallConfigName ;;
      doM (config, err) <- getter name ;;
      match err with
      | Some _ => ret (addError' i (Wrap err "simple installer failed"))
      | None =>
          doM (i, allUnstructured) <- installAll i (Spec_Install config) [] ;;
          doM i <- applyAll i allUnstructured ;;
          ret (errorsOf i, i)
      end
  end.
End Install.

Arguments InstallConfig : clear implicits.
Arguments simpleInstaller : clear implicits.

(** The inner loop of [Install] once more, for any kind of instance
    reference [O].  With [O] an address and the heap a part of the world,
    the instances are the [*Unstructured] of the source: a write through one
    of them is a change of the world, seen through every copy of the
    address.  [overrideAll] is this loop at [O := Unstructured], on the
    updaters of the installer. *)
Fixpoint overrideEach {W Entry WithInstallUnstructuredUpdater O}
  (WithInstallUnstructuredUpdaterList :
     Entry -> list WithInstallUnstructuredUpdater ->
     list (UnstructuredMiddleware W O))
  (unstructuredUpdaters : list WithInstallUnstructuredUpdater)
  (install : Entry) (unstructs allUnstructured : list O) : M W (list O) :=
  match unstructs with
  | [] => ret allUnstructured
  | unstruct :: rest =>
      let installUpdaters :=
        WithInstallUnstructuredUpdaterList install unstructuredUpdaters in
      let finalUpdater := UnstructuredUpdater installUpdaters in
      doM updated <- finalUpdater unstruct ;;
      overrideEach WithInstallUnstructuredUpdaterList unstructuredUpdaters
        install rest (allUnstructured ++ [updated])
  end.

(** *** Recording the calls of the collaborators *)

Definition lifted {W E A} (m : M W A) : M (W * list E) A :=
  fun '(w, log) => let (a, w') := m w in (a, (w', log)).

Definition noted {W E A} (e : E) (m : M W A) : M (W * list E) A :=
  fun '(w, log) => let (a, w') := m w in (a, (w', log ++ [e])).

Section Spy.
Context {W Entry ArtifactList WithInstallUnstructuredUpdater : Type}.

Definition spyInstaller
  (i : simpleInstaller W Entry ArtifactList WithInstallUnstructuredUpdater)
  : simpleInstaller (W * list Event) Entry ArtifactList
      WithInstallUnstructuredUpdater :=
  {| configGetter :=
       (fun getter name => noted (EvConfig name) (getter name)) <$> configGetter i;
     artifactLister := fun v => noted (EvListArtifacts v) (artifactLister i v);
     transformer := fun l => noted EvTransform (transformer i l);
     unstructuredUpdaters := unstructuredUpdaters i;
     installErrors_ := installErrors_ i |}.

Definition spyUpdaterList
  (f : Entry -> list WithInstallUnstructuredUpdater ->
       list (UnstructuredMiddleware W Unstructured))
  : Entry -> list WithInstallUnstructuredUpdater ->
    list (UnstructuredMiddleware (W * list Event) Unstructured) :=
  fun install updaters =>
    (fun u given => noted (EvUpdate given) (u given)) <$> f install updaters.

Definition spyApplierFor
  (f : GroupVersionResource -> string -> ResourceApplier W)
  : GroupVersionResource -> string -> ResourceApplier (W * list Event) :=
  fun gvr namespace obj subresources =>
    noted (EvApply gvr namespace obj) (f gvr namespace obj subresources).

(** The events of one [Install] run from world [w], with every
    collaborator recording. *)
Definition trace (Version : Entry -> string)
  (env_Get : string -> M W string) (key : string)
  (updaterList : Entry -> list WithInstallUnstructuredUpdater ->
                 list (UnstructuredMiddleware W Unstructured))
  (gvrOf : Unstructured -> GroupVersionResource)
  (applierFor : GroupVersionResource -> string -> ResourceApplier W)
  (i : simpleInstaller W Entry ArtifactList WithInstallUnstructuredUpdater)
  (w : W) : list Event :=
  snd (snd (Install Version (fun k => lifted (env_Get k)) key
              (spyUpdaterList updaterList) gvrOf (spyApplierFor applierFor)
              (spyInstaller i) (w, []))).
End Spy.

Section Constructor.
(** What [SimpleInstaller] calls from outside its file: [env.Get], the
    constant [EnvKeyForInstallConfigNamespace], [k8s.NewConfigMapGetter],
    [WithConfigMapConfigGetter], [ListArtifactsByVersion],
    [TransformArtifactToUnstructuredList] and the three updaters. *)
Context {W Entry ArtifactList WithInstallUnstructuredUpdater ConfigMapGetter : Type}.
Variable env_Get : string -> M W string.
Variable EnvKeyForInstallConfigNamespace : string.
Variable NewConfigMapGetter : string -> ConfigMapGetter.
Variable WithConfigMapConfigGetter :
  ConfigMapGetter -> option (string -> M W (InstallConfig Entry * error)).
Variable ListArtifactsByVersion : string -> M W (ArtifactList * error).
Variable TransformArtifactToUnstructuredList :
  ArtifactList -> M W (list Unstructured * list error).
Variable updateUnstructuredNamespace : WithInstallUnstructuredUpdater.
Variable updateUnstructuredLabels : WithInstallUnstructuredUpdater.
Variable updateUnstructuredAnnotations : WithInstallUnstructuredUpdater.

(** func SimpleInstaller.  The embedded [installErrors] is not named in
    the literal, so it is the zero value: a nil list. *)
Definition SimpleInstaller
  : M W (simpleInstaller W Entry ArtifactList WithInstallUnstructuredUpdater) :=
  doM namespace <- env_Get EnvKeyForInstallConfigNamespace ;;
  let cmGetter := NewConfigMapGetter namespace in
  ret {| configGetter := WithConfigMapConfigGetter cmGetter;
         artifactLister := ListArtifactsByVersion;
         transformer := TransformArtifactToUnstructuredList;
         unstructuredUpdaters :=
           [updateUnstructuredNamespace;
            updateUnstructuredLabels;
            updateUnstructuredAnnotations];
         installErrors_ := {| errors := [] |} |}.
End Constructor.

End Installer.


(** ** pkg/install/v1alpha1/registrar_0.7.0.go: resource types of artifacts *)

Module Registrar.
Import K8s.

(** type Artifact, with the two fields the sources use. *)
Record Artifact : Type := {
  Doc : string;
  GroupVersionResource_ : GroupVersionResource;
}.

(** An [*Artifact] is an address, and the artifacts live in a heap: the
    updaters below write through the pointer they are given, so every holder
    of the pointer sees the write.  The nil pointer, on which the write
    panics, is no address. *)
Definition Heap : Type := nat -> Artifact.

Definition setGroupVersionResource (gvr : GroupVersionResource) (given : nat)
  : M Heap unit :=
  fun h =>
    (tt, fun l => if Nat.eqb l given
                  then {| Doc := Doc (h l); GroupVersionResource_ := gvr |}
                  else h l).

(** type ArtifactMiddleware *)
Definition ArtifactMiddleware : Type := nat -> M Heap nat.

Definition castemplates : GroupVersionResource :=
  {| Group := "openebs.io"; Version := "v1alpha1"; Resource := "castemplates" |}.

Definition runtasks : GroupVersionResource :=
  {| Group := "openebs.io"; Version := "v1alpha1"; Resource := "runtasks" |}.

(** func WithGVRCasTemplateUpdaterFor070 *)
Definition WithGVRCasTemplateUpdaterFor070 : ArtifactMiddleware :=
  fun given =>
    doM _ <- setGroupVersionResource castemplates given ;;
    ret given.

(** func WithGVRRunTaskUpdaterFor070 *)
Definition WithGVRRunTaskUpdaterFor070 : ArtifactMiddleware :=
  fun given =>
    doM _ <- setGroupVersionResource runtasks given ;;
    ret given.

(** The range loop of the two list updaters:
    [updated = append(updated, gvrUpdate(artifact))]. *)
Fixpoint updateEach (gvrUpdate : ArtifactMiddleware) (given updated : list nat)
  : M Heap (list nat) :=
  match given with
  | [] => ret updated
  | artifact :: rest =>
      doM a <- gvrUpdate artifact ;;
      updateEach gvrUpdate rest (updated ++ [a])
  end.

(** func WithGVRCasTemplateListUpdaterFor070 *)
Definition WithGVRCasTemplateListUpdaterFor070 (given : list nat)
  : M Heap (list nat) :=
  let gvrUpdate := WithGVRCasTemplateUpdaterFor070 in
  updateEach gvrUpdate given [].

(** func WithGVRRunTaskListUpdaterFor070 *)
Definition WithGVRRunTaskListUpdaterFor070 (given : list nat)
  : M Heap (list nat) :=
  let gvrUpdate := WithGVRRunTaskUpdaterFor070 in
  updateEach gvrUpdate given [].

End Registrar.

(** ** An in-memory remote store and concrete collaborators

    The remote store and the collaborators of the installer are outside the
    sources.  To run the embedded code on concrete inputs, the store is a
    finite map addressed by (group, version, resource, namespace, name), as
    section 6 of the specification describes it, and the collaborators are
    the simplest ones that fit the types. *)

Module Fake.
Import K8s Installer.

Definition Key : Type := string * string * string * string * string.

Record Cluster : Type := {
  objects : gmap Key Unstructured;
  (** what [NewDynamicGetter()()] reports: nil when the client is there *)
  clientError : error;
}.

Definition key (gvr : GroupVersionResource) (namespace name : string) : Key :=
  (Group gvr, K8s.Version gvr, Resource gvr, namespace, name).

Definition setObjects (c : Cluster) (m : gmap Key Unstructured) : Cluster :=
  {| objects := m; clientError := clientError c |}.

Definition notFound (name : string) : err :=
  StatusError StatusReasonNotFound ("resource '" +:+ name +:+ "' not found").

Definition alreadyExists (name : string) : err :=
  StatusError StatusReasonAlreadyExists ("resource '" +:+ name +:+ "' already exists").

(** Modelled from the spec: get of the remote store (sections 4.3 and 6),
    which fails with a not-found status when the name is absent. *)
Definition storeGet (gvr : GroupVersionResource) (namespace : string)
  : string -> GetOptions -> list string -> M Cluster (ptr * error) :=
  fun name _ _ c =>
    match objects c !! key gvr namespace name with
    | Some o => ((Some o, None), c)
    | None => ((None, Some (notFound name)), c)
    end.

(** Modelled from the spec: create of the remote store, which adds an
    object under a name that is absent and answers with the stored object. *)
Definition storeCreate (gvr : GroupVersionResource) (namespace : string)
  : ptr -> list string -> M Cluster (ptr * error) :=
  fun obj _ c =>
    match obj with
    | None => ((None, Some (Errorf "nil object")), c)
    | Some o =>
        match objects c !! key gvr namespace (GetName o) with
        | Some _ => ((None, Some (alreadyExists (GetName o))), c)
        | None =>
            ((Some o, None),
             setObjects c (<[key gvr namespace (GetName o) := o]> (objects c)))
        end
    end.

(** Modelled from the spec: update of the remote store, a full overwrite of
    the object stored under the name. *)
Definition storeUpdate (gvr : GroupVersionResource) (namespace : string)
  : ptr -> list string -> M Cluster (ptr * error) :=
  fun obj _ c =>
    match obj with
    | None => ((None, Some (Errorf "nil object")), c)
    | Some o =>
        match objects c !! key gvr namespace (GetName o) with
        | None => ((None, Some (notFound (GetName o))), c)
        | Some _ =>
            ((Some o, None),
             setObjects c (<[key gvr namespace (GetName o) := o]> (objects c)))
        end
    end.

Definition dynamic : DynamicInterface Cluster :=
  fun gvr namespace =>
    {| Create := storeCreate gvr namespace;
       Update := storeUpdate gvr namespace;
       Get := storeGet gvr namespace |}.

Definition NewDynamicGetter : M Cluster (DynamicInterface Cluster * error) :=
  fun c => ((dynamic, clientError c), c).

(** The applier of the sources over this store. *)
Definition applier (gvr : GroupVersionResource) (namespace : string)
  : ResourceApplier Cluster :=
  NewResourceApplier NewDynamicGetter gvr namespace.

Definition emptyCluster : Cluster := {| objects := ∅; clientError := None |}.

Definition castemplates : GroupVersionResource :=
  {| Group := "openebs.io"; K8s.Version := "v1alpha1"; Resource := "castemplates" |}.

Definition template (n : string) (data : list (string * string)) : Unstructured :=
  {| apiVersion := "openebs.io/v1alpha1"; kind := "CASTemplate";
     name := n; namespace := ""; content := data |}.

(** Primitives that answer from the store under one resource type and
    namespace, without the checks of [NewResourceGetter] and its siblings:
    what a test injects into [newResourceApplier]. *)
Definition storeOptions : ResourceApplyOptions Cluster :=
  {| Getter := Some (storeGet castemplates "openebs");
     Creator := Some (storeCreate castemplates "openebs");
     Updater := Some (storeUpdate castemplates "openebs") |}.

(** *** Collaborators of the installer *)

(** An entry of the install configuration: a version and a namespace
    override. *)
Record Entry : Type := { version : string; setNamespace : string }.

Definition InstallUpdater : Type := Entry -> UnstructuredMiddleware Cluster Unstructured.

(** Modelled from the spec: the namespace override of section 4.2, which
    sets the namespace of the instance unless the configured value is
    empty. *)
Definition updateUnstructuredNamespace : InstallUpdater :=
  fun install given =>
    ret (if Nat.eqb (String.length (setNamespace install)) 0 then given
         else {| apiVersion := apiVersion given; kind := kind given;
                 name := name given; namespace := setNamespace install;
                 content := content given |}).

(** Modelled from the spec: the updaters of the installer, each given the
    entry whose override values it applies (section 4.4, step 4). *)
Definition WithInstallUnstructuredUpdaterList (install : Entry)
  (updaters : list InstallUpdater) : list (UnstructuredMiddleware Cluster Unstructured) :=
  (fun u => u install) <$> updaters.

(** Modelled from the spec: resource-type assignment (section 4.2), here
    with the one descriptor of template objects. *)
Definition GroupVersionResourceFromGVK (u : Unstructured) : GroupVersionResource :=
  castemplates.

Definition env_Get (k : string) : M Cluster string := ret "install-config".

(** An installer whose configuration source answers [config] and [err],
    whose catalog has [artifacts] for every version, and whose transformer
    decodes nothing: the artifacts are instances already. *)
Definition installer (config : InstallConfig Entry) (err : error)
  (artifacts : list Unstructured) (errs : list error)
  : simpleInstaller Cluster Entry (list Unstructured) InstallUpdater :=
  {| configGetter := Some (fun _ => ret (config, err));
     artifactLister := fun _ => ret (artifacts, None);
     transformer := fun l => ret (l, []);
     unstructuredUpdaters := [updateUnstructuredNamespace];
     installErrors_ := {| errors := errs |} |}.

Definition Install (i : simpleInstaller Cluster Entry (list Unstructured) InstallUpdater)
  : M Cluster (list error * simpleInstaller Cluster Entry (list Unstructured) InstallUpdater) :=
  Installer.Install version env_Get "OPENEBS_IO_INSTALL_CONFIG_NAME"
    WithInstallUnstructuredUpdaterList GroupVersionResourceFromGVK applier i.

Definition trace (i : simpleInstaller Cluster Entry (list Unstructured) InstallUpdater)
  : Cluster -> list Event :=
  Installer.trace version env_Get "OPENEBS_IO_INSTALL_CONFIG_NAME"
    WithInstallUnstructuredUpdaterList GroupVersionResourceFromGVK applier i.

(** A store that holds [o] under its name, as a castemplate of namespace
    openebs. *)
Definition clusterWith (o : Unstructured) : Cluster :=
  {| objects := {[ key castemplates "openebs" (GetName o) := o ]};
     clientError := None |}.

Definition config070 : InstallConfig Entry :=
  {| Spec_Install := [ {| version := "0.7.0"; setNamespace := "openebs" |} ] |}.

(** Options whose getter reports the store as unavailable, whatever the
    name. *)
Definition unavailable : err :=
  StatusError StatusReasonServiceUnavailable "the server is currently unable to handle the request".

Definition unavailableGetter : ResourceGetter Cluster :=
  fun _ _ _ => ret (None, Some unavailable).

Definition unavailableOptions : ResourceApplyOptions Cluster :=
  {| Getter := Some unavailableGetter;
     Creator := Creator storeOptions;
     Updater := K8s.Updater storeOptions |}.

(** Options without a getter. *)
Definition noGetterOptions : ResourceApplyOptions Cluster :=
  {| Getter := None;
     Creator := Creator storeOptions;
     Updater := K8s.Updater storeOptions |}.

End Fake.

Import K8s Installer.


(** The message [newResourceApplier] wraps a get error with. *)
Definition applyMessage (o : Unstructured) : string :=
  "failed to apply resource '" +:+ GetName o +:+ "'".

(** A middleware that only computes: it returns [f given] and leaves the
    world alone. *)
Definition pureMiddleware {W O} (f : O -> O) : UnstructuredMiddleware W O :=
  fun given => ret (f given).

(** One run of [f] on each element of a list, first to last, each run from
    the world the run before it left, and the results in that order. *)
Fixpoint runEach {W A B} (f : A -> M W B) (xs : list A) : M W (list B) :=
  match xs with
  | [] => ret []
  | x :: rest =>
      doM y <- f x ;;
      doM ys <- runEach f rest ;;
      ret (y :: ys)
  end.

(** The errors of the apply calls of the last loop of [Install], one for
    each instance and in their order, nil for an apply that succeeded. *)
Fixpoint applyOutcomes {W} (gvrOf : Unstructured -> GroupVersionResource)
  (applierFor : GroupVersionResource -> string -> ResourceApplier W)
  (allUnstructured : list Unstructured) : M W (list error) :=
  match allUnstructured with
  | [] => ret []
  | unstruct :: rest =>
      doM (_, err) <- applierFor (gvrOf unstruct) (GetNamespace unstruct)
                        (Some unstruct) [] ;;
      doM errs <- applyOutcomes gvrOf applierFor rest ;;
      ret (err :: errs)
  end.

(** * Properties *)

(** Membership in a list that is written out. *)
Ltac in_list := apply list_elem_of_In; simpl; tauto.

Implicit Types (o : Unstructured) (obj r : ptr) (e : error)
  (subresources : list string).

(** One run of the applier past its four checks: the get call, then the
    branch on its error. *)
Lemma newResourceApplier_run {W} (options : ResourceApplyOptions W)
  getter creator updater o subresources (w : W) r e w1 :
  Getter options = Some getter ->
  Creator options = Some creator ->
  Updater options = Some updater ->
  getter (GetName o) GetOptions_zero [] w = ((r, e), w1) ->
  newResourceApplier options (Some o) subresources w =
    if IsNotFound e then creator (Some o) subresources w1
    else ((r, Wrapf e (applyMessage o)), w1).
Proof.
  intros Hg Hc Hu Hget. unfold newResourceApplier, bind.
  rewrite Hg, Hc, Hu, Hget. now destruct (IsNotFound e).
Qed.

(** The same run with recording primitives. *)
Lemma calls_run {W} (options : ResourceApplyOptions W)
  getter creator updater o subresources (w : W) r e w1 :
  Getter options = Some getter ->
  Creator options = Some creator ->
  Updater options = Some updater ->
  getter (GetName o) GetOptions_zero [] w = ((r, e), w1) ->
  calls options (Some o) subresources w =
    CallGet (GetName o) GetOptions_zero [] ::
    (if IsNotFound e then [CallCreate (Some o) subresources] else []).
Proof.
  intros Hg Hc Hu Hget. unfold calls.
  rewrite (newResourceApplier_run (spyOptions options) (spyGetter getter)
             (spyCreator creator) (spyUpdater updater) o subresources
             (w, []) r e (w1, [CallGet (GetName o) GetOptions_zero []])).
  - destruct (IsNotFound e); [|reflexivity].
    unfold spyCreator, logged. now destruct (creator (Some o) subresources w1).
  - unfold spyOptions. now rewrite Hg.
  - unfold spyOptions. now rewrite Hc.
  - unfold spyOptions. now rewrite Hu.
  - unfold spyGetter, logged. now rewrite Hget.
Qed.

(** A run that stops at one of the four checks calls nothing. *)
Lemma calls_nil_object {W} (options : ResourceApplyOptions W)
  subresources (w : W) :
  calls options None subresources w = [].
Proof.
  unfold calls, newResourceApplier, spyOptions.
  destruct (Getter options), (Creator options), (Updater options); reflexivity.
Qed.

(** When get succeeds, the applier returns what get returned: found or
    not, the error is not a not-found, and wrapping nil gives nil. *)
Lemma newResourceApplier_found {W} (options : ResourceApplyOptions W)
  getter creator updater o subresources (w : W) r w1 :
  Getter options = Some getter ->
  Creator options = Some creator ->
  Updater options = Some updater ->
  getter (GetName o) GetOptions_zero [] w = ((r, None), w1) ->
  newResourceApplier options (Some o) subresources w = ((r, None), w1)
  /\ calls options (Some o) subresources w = [CallGet (GetName o) GetOptions_zero []].
Proof.
  intros Hg Hc Hu Hget. split.
  - now rewrite (newResourceApplier_run _ _ _ _ _ _ _ _ _ _ Hg Hc Hu Hget).
  - now rewrite (calls_run _ _ _ _ _ _ _ _ _ _ Hg Hc Hu Hget).
Qed.

(** ** The three outcomes of get *)

(** C5 (not-found path).  An apply call reaches get when the three
    primitives are present and the object is not nil.  If get then fails
    with a not-found error, the call is the create call on the given object
    (with the subresources of the apply call) from the world get left, so it
    returns create's result; the primitives called are get, then create
    once, and update not at all. *)
Theorem apply_not_found_creates {W} (options : ResourceApplyOptions W)
  getter creator updater o subresources (w : W) r e w1 :
  Getter options = Some getter ->
  Creator options = Some creator ->
  Updater options = Some updater ->
  getter (GetName o) GetOptions_zero [] w = ((r, e), w1) ->
  IsNotFound e = true ->
  newResourceApplier options (Some o) subresources w
    = creator (Some o) subresources w1
  /\ calls options (Some o) subresources w
    = [CallGet (GetName o) GetOptions_zero []; CallCreate (Some o) subresources].
Proof.
  intros Hg Hc Hu Hget Hnf. split.
  - rewrite (newResourceApplier_run _ _ _ _ _ _ _ _ _ _ Hg Hc Hu Hget).
    now rewrite Hnf.
  - rewrite (calls_run _ _ _ _ _ _ _ _ _ _ Hg Hc Hu Hget).
    now rewrite Hnf.
Qed.

Lemma apply_not_found_creates_witness :
  let o := Fake.template "cstor-volume-create-default-0.7.0" [] in
  newResourceApplier Fake.storeOptions (Some o) [] Fake.emptyCluster
    = Fake.storeCreate Fake.castemplates "openebs" (Some o) [] Fake.emptyCluster
  /\ calls Fake.storeOptions (Some o) [] Fake.emptyCluster
    = [CallGet (GetName o) GetOptions_zero []; CallCreate (Some o) []].
Proof.
  intro o.
  apply (apply_not_found_creates Fake.storeOptions
           (Fake.storeGet Fake.castemplates "openebs")
           (Fake.storeCreate Fake.castemplates "openebs")
           (Fake.storeUpdate Fake.castemplates "openebs")
           o [] Fake.emptyCluster None (Some (Fake.notFound (GetName o)))
           Fake.emptyCluster);
    reflexivity.
Defined.

(** C3, as the code has it (get-error short-circuit).  If get fails with an
    error that is not a not-found, the apply call returns the resource get
    returned and the get error wrapped with the message
    "failed to apply resource '<name>'": the get error is the cause of the
    returned error, not the returned error.  The world is the one get left,
    and get is the only primitive called. *)
Theorem apply_get_error_short_circuits {W} (options : ResourceApplyOptions W)
  getter creator updater o subresources (w : W) r cause w1 :
  Getter options = Some getter ->
  Creator options = Some creator ->
  Updater options = Some updater ->
  getter (GetName o) GetOptions_zero [] w = ((r, Some cause), w1) ->
  IsNotFound (Some cause) = false ->
  newResourceApplier options (Some o) subresources w
    = ((r, Some (withStack cause
                   ("failed to apply resource '" +:+ GetName o +:+ "'"))), w1)
  /\ calls options (Some o) subresources w
    = [CallGet (GetName o) GetOptions_zero []].
Proof.
  intros Hg Hc Hu Hget Hnf. split.
  - rewrite (newResourceApplier_run _ _ _ _ _ _ _ _ _ _ Hg Hc Hu Hget).
    now rewrite Hnf.
  - rewrite (calls_run _ _ _ _ _ _ _ _ _ _ Hg Hc Hu Hget).
    now rewrite Hnf.
Qed.

Lemma apply_get_error_short_circuits_witness :
  let o := Fake.template "cstor-volume-create-default-0.7.0" [] in
  newResourceApplier Fake.unavailableOptions (Some o) [] Fake.emptyCluster
    = ((None, Some (withStack Fake.unavailable
         "failed to apply resource 'cstor-volume-create-default-0.7.0'")),
       Fake.emptyCluster)
  /\ calls Fake.unavailableOptions (Some o) [] Fake.emptyCluster
    = [CallGet (GetName o) GetOptions_zero []].
Proof.
  intro o.
  apply (apply_get_error_short_circuits Fake.unavailableOptions
           Fake.unavailableGetter
           (Fake.storeCreate Fake.castemplates "openebs")
           (Fake.storeUpdate Fake.castemplates "openebs")
           o [] Fake.emptyCluster None Fake.unavailable Fake.emptyCluster);
    reflexivity.
Defined.

(** The get error does not come back unchanged: with a getter that reports
    the store as unavailable, the error of the apply call is not the error
    get returned. *)
Lemma apply_get_error_is_wrapped :
  let o := Fake.template "cstor-volume-create-default-0.7.0" [] in
  Fake.unavailableGetter (GetName o) GetOptions_zero [] Fake.emptyCluster
    = ((None, Some Fake.unavailable), Fake.emptyCluster)
  /\ IsNotFound (Some Fake.unavailable) = false
  /\ snd (fst (newResourceApplier Fake.unavailableOptions (Some o) []
                 Fake.emptyCluster)) <> Some Fake.unavailable.
Proof.
  cbn. repeat split. discriminate.
Qed.

(** C1 at a failing input (found path).  The store holds an object under
    the name of the desired object, so get succeeds.  The apply call returns
    the object get found, with a nil error, and leaves the store as it was:
    the only primitive called is get, update is not called. *)
Theorem apply_found_skips_update :
  let stored := Fake.template "cstor-volume-read-default-0.7.0" [("spec", "old")] in
  let desired := Fake.template "cstor-volume-read-default-0.7.0" [("spec", "new")] in
  let c := Fake.clusterWith stored in
  Fake.storeGet Fake.castemplates "openebs" (GetName desired) GetOptions_zero [] c
    = ((Some stored, None), c)
  /\ newResourceApplier Fake.storeOptions (Some desired) [] c
    = ((Some stored, None), c)
  /\ calls Fake.storeOptions (Some desired) [] c
    = [CallGet (GetName desired) GetOptions_zero []]
  /\ Fake.applier Fake.castemplates "openebs" (Some desired) [] c
    = ((Some stored, None), c).
Proof.
  intros stored desired c.
  assert (Hget : Fake.storeGet Fake.castemplates "openebs" (GetName desired)
                   GetOptions_zero [] c = ((Some stored, None), c)).
  { unfold Fake.storeGet, c, Fake.clusterWith. cbn [Fake.objects].
    change (GetName desired) with (GetName stored).
    now rewrite lookup_singleton_eq. }
  split; [exact Hget|].
  destruct (newResourceApplier_found Fake.storeOptions _ _ _ desired [] c
              (Some stored) c eq_refl eq_refl eq_refl Hget) as [Hrun Hcalls].
  split; [exact Hrun|]. split; [exact Hcalls|].
  unfold Fake.applier, NewResourceApplier.
  refine (proj1 (newResourceApplier_found
                   (NewResourceApplyOptions Fake.NewDynamicGetter
                      Fake.castemplates "openebs")
                   _ _ _ desired [] c (Some stored) c eq_refl eq_refl eq_refl _)).
  unfold NewResourceGetter, bind, Fake.NewDynamicGetter. cbn. exact Hget.
Qed.

(** ** Misconfigured appliers and invalid input *)

(** A name of ASCII white space only trims to the empty string. *)
Lemma trimLeft_ascii_blank (bs : list N) (fuel : nat) :
  Forall (fun c => asciiSpace c = true) bs ->
  (length bs <= fuel)%nat ->
  trimLeft fuel bs = [].
Proof.
  revert bs. induction fuel as [|fuel IH]; intros bs Hall Hlen.
  - destruct bs; [reflexivity|cbn in Hlen; exfalso; lia].
  - destruct Hall as [|c rest Hc Hrest]; [reflexivity|].
    cbn [trimLeft spaceWidth]. rewrite Hc. cbn. rewrite drop_0.
    apply IH; [exact Hrest|cbn in Hlen; lia].
Qed.

Lemma TrimSpace_ascii_blank (s : string) :
  Forall (fun c => asciiSpace c = true) (bytes s) ->
  String.length (TrimSpace s) = 0.
Proof.
  intros Hall. unfold TrimSpace.
  rewrite trimLeft_ascii_blank; [reflexivity|exact Hall|].
  unfold bytes. rewrite length_fmap.
  clear. induction s; cbn; lia.
Qed.

(** C7, as the code has it.  [newResourceApplier] builds an applier from
    any options; a missing primitive shows at each apply call.  Whatever the
    object and the world, the call returns a nil resource and the error of
    the first missing primitive in the order getter, creator, updater: the
    getter error when the getter is missing, the creator error when only
    the getter is there, the updater error when getter and creator are
    there.  It changes nothing and calls no primitive.  The options that
    [NewResourceApplier] builds have all three primitives. *)
Theorem missing_primitive_fails_every_apply {W} (options : ResourceApplyOptions W)
  obj subresources (w : W) :
  Getter options = None \/ Creator options = None \/ Updater options = None ->
  newResourceApplier options obj subresources w
    = ((None,
        Some (match Getter options, Creator options with
              | None, _ =>
                  Errorf "nil resource getter instance: failed to apply resource"
              | Some _, None =>
                  Errorf "nil resource creator instance: failed to apply resource"
              | Some _, Some _ =>
                  Errorf "nil resource updater instance: failed to apply resource"
              end)), w)
  /\ calls options obj subresources w = []
  /\ (forall (dyn : M W (DynamicInterface W * error)) gvr namespace,
        NewResourceApplier dyn gvr namespace
          = newResourceApplier (NewResourceApplyOptions dyn gvr namespace)
        /\ is_Some (Getter (NewResourceApplyOptions dyn gvr namespace))
        /\ is_Some (Creator (NewResourceApplyOptions dyn gvr namespace))
        /\ is_Some (Updater (NewResourceApplyOptions dyn gvr namespace))).
Proof.
  intros Hmissing. split; [|split].
  - unfold newResourceApplier.
    destruct (Getter options) as [g|]; [|reflexivity].
    destruct (Creator options) as [c|]; [|reflexivity].
    destruct (Updater options) as [u|]; [|reflexivity].
    destruct Hmissing as [?|[?|?]]; discriminate.
  - unfold calls, newResourceApplier, spyOptions.
    destruct (Getter options) as [g|]; [|reflexivity].
    destruct (Creator options) as [c|]; [|reflexivity].
    destruct (Updater options) as [u|]; [|reflexivity].
    destruct Hmissing as [?|[?|?]]; discriminate.
  - intros dyn gvr namespace. cbn. repeat split; now eexists.
Qed.

Lemma missing_primitive_fails_every_apply_witness :
  let options : ResourceApplyOptions Fake.Cluster :=
    {| Getter := None; Creator := Creator Fake.storeOptions; Updater := None |} in
  newResourceApplier options (Some (Fake.template "a" [])) [] Fake.emptyCluster
    = ((None,
        Some (Errorf "nil resource getter instance: failed to apply resource")),
       Fake.emptyCluster)
  /\ calls options (Some (Fake.template "a" [])) [] Fake.emptyCluster = []
  /\ (forall (dyn : M Fake.Cluster (DynamicInterface Fake.Cluster * error))
             gvr namespace,
        NewResourceApplier dyn gvr namespace
          = newResourceApplier (NewResourceApplyOptions dyn gvr namespace)
        /\ is_Some (Getter (NewResourceApplyOptions dyn gvr namespace))
        /\ is_Some (Creator (NewResourceApplyOptions dyn gvr namespace))
        /\ is_Some (Updater (NewResourceApplyOptions dyn gvr namespace))).
Proof.
  intros options.
  apply (missing_primitive_fails_every_apply options
           (Some (Fake.template "a" [])) [] Fake.emptyCluster).
  left. reflexivity.
Defined.

(** Construction does not detect a missing primitive: options without a
    getter give an applier, and the missing getter is reported by the apply
    calls, here two of them, each with the same error. *)
Lemma missing_getter_found_at_apply :
  let apply := newResourceApplier Fake.noGetterOptions in
  apply (Some (Fake.template "a" [])) [] Fake.emptyCluster
    = ((None, Some (Errorf "nil resource getter instance: failed to apply resource")),
       Fake.emptyCluster)
  /\ apply (Some (Fake.template "b" [])) [] Fake.emptyCluster
    = ((None, Some (Errorf "nil resource getter instance: failed to apply resource")),
       Fake.emptyCluster).
Proof. split; reflexivity. Qed.

(** The getter of [NewResourceGetter] turns a blank name down before it
    asks for the client of the store. *)
Lemma NewResourceGetter_blank {W} (dyn : M W (DynamicInterface W * error))
  gvr namespace name options subresources (w : W) :
  String.length (TrimSpace name) = 0 ->
  NewResourceGetter dyn gvr namespace name options subresources w
    = ((None, Some (Errorf "missing resource name: failed to get resource")), w).
Proof.
  intros Hblank. unfold NewResourceGetter. now rewrite Hblank.
Qed.

(** C8.  The applier that [NewResourceApplier] builds turns invalid input
    down: for the nil object, and for an object whose name is empty or made
    of white space only (its name trimmed by [strings.TrimSpace] has length
    0), the apply call returns a nil resource and an error, changes nothing,
    and calls neither create nor update. *)
Theorem applier_rejects_invalid_input {W} (dyn : M W (DynamicInterface W * error))
  gvr namespace obj subresources (w : W) :
  obj = None
  \/ (exists o, obj = Some o /\ String.length (TrimSpace (GetName o)) = 0) ->
  (exists failure : err, NewResourceApplier dyn gvr namespace obj subresources w
             = ((None, Some failure), w))
  /\ (forall c, c ∈ calls (NewResourceApplyOptions dyn gvr namespace) obj
                     subresources w ->
                isCreate c = false /\ isUpdate c = false).
Proof.
  intros [->|(o & -> & Hblank)].
  - split; [now eexists|].
    rewrite calls_nil_object. intros c Hc. now apply elem_of_nil in Hc.
  - pose proof (NewResourceGetter_blank dyn gvr namespace (GetName o)
                  GetOptions_zero [] w Hblank) as Hget.
    split.
    + eexists. unfold NewResourceApplier.
      now rewrite (newResourceApplier_run
                     (NewResourceApplyOptions dyn gvr namespace)
                     _ _ _ o subresources w _ _ _ eq_refl eq_refl eq_refl Hget).
    + rewrite (calls_run (NewResourceApplyOptions dyn gvr namespace)
                 _ _ _ o subresources w _ _ _ eq_refl eq_refl eq_refl Hget).
      cbn. intros c Hc. apply list_elem_of_In in Hc. simpl in Hc.
      destruct Hc as [<-|[]]. now split.
Qed.

Lemma applier_rejects_invalid_input_witness :
  let blank := Fake.template "  " [] in
  (exists failure : err, NewResourceApplier Fake.NewDynamicGetter Fake.castemplates "openebs"
               (Some blank) [] Fake.emptyCluster
             = ((None, Some failure), Fake.emptyCluster))
  /\ (forall c, c ∈ calls (NewResourceApplyOptions Fake.NewDynamicGetter
                             Fake.castemplates "openebs")
                     (Some blank) [] Fake.emptyCluster ->
                isCreate c = false /\ isUpdate c = false).
Proof.
  intro blank.
  apply (applier_rejects_invalid_input Fake.NewDynamicGetter Fake.castemplates
           "openebs" (Some blank) [] Fake.emptyCluster).
  right. exists blank. split; reflexivity.
Defined.

(** ** The mutation pipeline *)

Lemma UnstructuredUpdater_pure {W O} (fs : list (O -> O)) (given : O) (w : W) :
  UnstructuredUpdater (pureMiddleware <$> fs) given w
    = (foldl (fun acc f => f acc) given fs, w).
Proof.
  revert given. induction fs as [|f fs IH]; intros given; [reflexivity|].
  cbn. unfold bind, pureMiddleware at 1, ret. apply IH.
Qed.

(** C9.  [UnstructuredUpdater] makes one middleware of a list of them.  It
    runs the elements in list order, each on what the one before returned:
    the empty list returns the instance as given, [u :: us] runs [u] and
    then the rest, and a list of computations is the left fold of their
    application.  Composition follows list append: the updater of
    [xs ++ ys] is the updater of [xs] followed by the updater of [ys] on its
    result, so the updater of a list of updaters of lists is the updater of
    the flattened list. *)
Theorem UnstructuredUpdater_app {W O} (xs ys : list (UnstructuredMiddleware W O))
  (given : O) (w : W) :
  UnstructuredUpdater (xs ++ ys) given w
    = (doM updated <- UnstructuredUpdater xs given ;;
       UnstructuredUpdater ys updated) w
  /\ UnstructuredUpdater (UnstructuredUpdater <$> [xs; ys]) given w
    = UnstructuredUpdater (xs ++ ys) given w
  /\ UnstructuredUpdater [] given w = (given, w)
  /\ (forall u, UnstructuredUpdater (u :: xs) given w
                = (doM updated <- u given ;; UnstructuredUpdater xs updated) w)
  /\ (forall fs gs : list (O -> O),
        UnstructuredUpdater (pureMiddleware <$> (fs ++ gs)) given w
        = UnstructuredUpdater (pureMiddleware <$> gs)
            (fst (UnstructuredUpdater (pureMiddleware <$> fs) given w)) w).
Proof.
  assert (Happ : forall (xs ys : list (UnstructuredMiddleware W O)) given w,
             UnstructuredUpdater (xs ++ ys) given w
             = (doM updated <- UnstructuredUpdater xs given ;;
                UnstructuredUpdater ys updated) w).
  { clear. intros xs ys. induction xs as [|u xs IH]; intros given w.
    - reflexivity.
    - cbn. unfold bind in *. destruct (u given w) as [given' w'].
      apply IH. }
  split; [apply Happ|]. split; [|split; [reflexivity|split; [reflexivity|]]].
  - rewrite Happ. cbn. unfold bind.
    destruct (UnstructuredUpdater xs given w) as [updated w'].
    now destruct (UnstructuredUpdater ys updated w').
  - intros fs gs. rewrite !UnstructuredUpdater_pure. cbn. now rewrite foldl_app.
Qed.

(** ** Applying twice *)

(** What one apply call of the applier of the sources does to the
    in-memory store. *)
Lemma applier_cases gvr namespace o subresources (c : Fake.Cluster) :
  Fake.applier gvr namespace (Some o) subresources c =
    if Nat.eqb (String.length (TrimSpace (GetName o))) 0 then
      ((None, Some (withStack (Errorf "missing resource name: failed to get resource")
                      (applyMessage o))), c)
    else
      match Fake.clientError c with
      | Some x =>
          ((None, Some (withStack
                          (withStack x ("failed to get resource '" +:+ GetName o +:+ "'"))
                          (applyMessage o))), c)
      | None =>
          match Fake.objects c !! Fake.key gvr namespace (GetName o) with
          | Some stored => ((Some stored, None), c)
          | None =>
              ((Some o, None),
               Fake.setObjects c
                 (<[Fake.key gvr namespace (GetName o) := o]> (Fake.objects c)))
          end
      end.
Proof.
  unfold Fake.applier, NewResourceApplier, newResourceApplier,
    NewResourceApplyOptions, NewResourceGetter, NewResourceCreator, bind, ret.
  cbn [Getter Creator Updater].
  destruct (Nat.eqb (String.length (TrimSpace (GetName o))) 0); [reflexivity|].
  unfold Fake.NewDynamicGetter at 1.
  destruct (Fake.clientError c) as [x|] eqn:Hclient; [reflexivity|].
  unfold Fake.dynamic. cbn [Get Create]. unfold Fake.storeGet.
  destruct (Fake.objects c !! Fake.key gvr namespace (GetName o)) as [stored|] eqn:Hlook.
  - reflexivity.
  - cbn. change (IsNotFound (Some (Fake.notFound (GetName o)))) with true.
    cbv beta iota. unfold Fake.storeCreate. now rewrite Hclient, Hlook.
Qed.

(** C4 (idempotence).  Against the in-memory store, for every object, a
    blank name included (an apply of such an object does not succeed): when
    an apply call succeeds, with resource [r1] and store [c1], the same
    apply call on [c1] succeeds too, returns [r1] again and leaves [c1] as
    it is; and [r1] is the object that [c1] holds under the name. *)
Theorem apply_twice_same_store gvr namespace o subresources
  (c c1 : Fake.Cluster) r1 :
  Fake.applier gvr namespace (Some o) subresources c = ((r1, None), c1) ->
  Fake.applier gvr namespace (Some o) subresources c1 = ((r1, None), c1)
  /\ Fake.objects c1 !! Fake.key gvr namespace (GetName o) = r1
  /\ is_Some r1.
Proof.
  intros Hfirst. rewrite applier_cases in Hfirst. rewrite applier_cases.
  destruct (Nat.eqb (String.length (TrimSpace (GetName o))) 0); [discriminate|].
  destruct (Fake.clientError c) as [x|] eqn:Hclient; [discriminate|].
  destruct (Fake.objects c !! Fake.key gvr namespace (GetName o))
    as [stored|] eqn:Hlook.
  - injection Hfirst as <- <-. rewrite Hclient, Hlook. now repeat split.
  - injection Hfirst as <- <-. cbn [Fake.setObjects Fake.clientError Fake.objects].
    rewrite Hclient, lookup_insert_eq. now repeat split.
Qed.

Lemma apply_twice_same_store_witness :
  let o := Fake.template "cstor-volume-create-default-0.7.0" [("spec", "new")] in
  let c1 := Fake.clusterWith o in
  Fake.applier Fake.castemplates "openebs" (Some o) [] c1 = ((Some o, None), c1)
  /\ Fake.objects c1 !! Fake.key Fake.castemplates "openebs" (GetName o) = Some o
  /\ is_Some (Some o).
Proof.
  intros o c1.
  apply (apply_twice_same_store Fake.castemplates "openebs" o []
           Fake.emptyCluster c1 (Some o)).
  vm_compute. reflexivity.
Defined.

(** ** The installer *)

Lemma addError_errors (i : installErrors) (e : error) :
  fst (addError i e) = errors i ++ [e]
  /\ errors (snd (addError i e)) = errors i ++ [e].
Proof. split; reflexivity. Qed.

Lemma addErrors_errors (i : installErrors) (errs : list error) :
  fst (addErrors i errs) = errors i ++ errs
  /\ errors (snd (addErrors i errs)) = errors i ++ errs.
Proof.
  unfold addErrors. cbn. enough (H : errors (fold_left (fun i e => snd (addError i e)) errs i)
                       = errors i ++ errs) by now split.
  revert i. induction errs as [|e errs IH]; intros i; cbn.
  - now rewrite app_nil_r.
  - rewrite IH. cbn. now rewrite <- app_assoc.
Qed.

Section InstallProperties.
Context {W Entry ArtifactList U : Type}.
Variable Version : Entry -> string.
Variable env_Get : string -> M W string.
Variable key : string.
Variable updaterList : Entry -> list U -> list (UnstructuredMiddleware W Unstructured).
Variable gvrOf : Unstructured -> GroupVersionResource.
Variable applierFor : GroupVersionResource -> string -> ResourceApplier W.

Implicit Types (i : simpleInstaller W Entry ArtifactList U) (w : W).

Lemma addError'_errors i (e : error) :
  fst (addError' i e) = errorsOf i ++ [e]
  /\ errorsOf (snd (addError' i e)) = errorsOf i ++ [e].
Proof. split; reflexivity. Qed.

Lemma addErrors'_errors i (errs : list error) :
  errorsOf (snd (addErrors' i errs)) = errorsOf i ++ errs.
Proof.
  unfold addErrors', errorsOf.
  destruct (addErrors (installErrors_ i) errs) as [l e'] eqn:Hadd. cbn.
  pose proof (proj2 (addErrors_errors (installErrors_ i) errs)) as H.
  now rewrite Hadd in H.
Qed.

(** The loop over the entries only adds to the error list. *)
Lemma installAll_grows (installs : list Entry) :
  forall i all w,
    errorsOf i `prefix_of`
      errorsOf (fst (fst (installAll Version updaterList i installs all w))).
Proof.
  induction installs as [|install rest IH]; intros i all w; [reflexivity|].
  cbn [installAll]. unfold bind at 1.
  destruct (artifactLister i (Version install) w) as [[list err0] w0].
  destruct err0 as [x|].
  - etrans; [|apply IH]. rewrite (proj2 (addError'_errors _ _)).
    now apply prefix_app_r.
  - unfold bind at 1.
    destruct (transformer i list w0) as [[unstructs errs] w1].
    unfold bind at 1.
    match goal with
    | |- context [overrideAll ?u ?j ?e ?us ?a ?x] =>
        destruct (overrideAll u j e us a x) as [all' w2]
    end.
    etrans; [|apply IH].
    destruct (negb (Nat.eqb (length errs) 0)); [|reflexivity].
    rewrite addErrors'_errors. now apply prefix_app_r.
Qed.

(** The loop over the instances adds one entry for each of them, the error
    of its apply call, nil or not. *)
Lemma applyAll_errors (all : list Unstructured) :
  forall i w,
    exists outcomes,
      errorsOf (fst (applyAll gvrOf applierFor i all w)) = errorsOf i ++ outcomes
      /\ length outcomes = length all.
Proof.
  induction all as [|unstruct rest IH]; intros i w.
  - exists []. cbn. now rewrite app_nil_r.
  - cbn [applyAll]. unfold bind at 1.
    destruct (applierFor (gvrOf unstruct) (GetNamespace unstruct)
                (Some unstruct) [] w) as [[res err0] w0].
    destruct (IH (snd (addError' i err0)) w0) as (outcomes & Heq & Hlen).
    exists (err0 :: outcomes). split; [|cbn; now rewrite Hlen].
    rewrite Heq, (proj2 (addError'_errors _ _)). now rewrite <- app_assoc.
Qed.

(** [Install] returns the error list of the receiver as the call leaves
    it, and that list starts with the list the receiver came with. *)
Lemma Install_grows i w :
  fst (fst (Install Version env_Get key updaterList gvrOf applierFor i w))
    = errorsOf (snd (fst (Install Version env_Get key updaterList gvrOf
                            applierFor i w)))
  /\ errorsOf i `prefix_of`
       fst (fst (Install Version env_Get key updaterList gvrOf applierFor i w)).
Proof.
  unfold Install, bind, ret. destruct (configGetter i) as [getter|].
  - destruct (env_Get key w) as [name w0].
    destruct (getter name w0) as [[config err0] w1].
    destruct err0 as [x|].
    + cbn. split; [reflexivity|]. now apply prefix_app_r.
    + pose proof (installAll_grows (Spec_Install config) i [] w1) as Hall.
      destruct (installAll Version updaterList i (Spec_Install config) [] w1)
        as [[i1 all] w2].
      destruct (applyAll_errors all i1 w2) as (outcomes & Heq & _).
      destruct (applyAll gvrOf applierFor i1 all w2) as [i2 w3].
      cbn in *. split; [reflexivity|].
      fold (errorsOf i2). rewrite Heq. etrans; [exact Hall|].
      now apply prefix_app_r.
  - cbn. split; [reflexivity|]. now apply prefix_app_r.
Qed.

End InstallProperties.

Section InstallClaims.
Context {W Entry ArtifactList U : Type}.
Variable Version : Entry -> string.
Variable env_Get : string -> M W string.
Variable key : string.
Variable updaterList : Entry -> list U -> list (UnstructuredMiddleware W Unstructured).
Variable gvrOf : Unstructured -> GroupVersionResource.
Variable applierFor : GroupVersionResource -> string -> ResourceApplier W.

Implicit Types (i : simpleInstaller W Entry ArtifactList U) (w : W).

(** C10.  The error list lives on the installer: [addError] and
    [addErrors] append to the field, and [Install] returns the field as the
    call leaves it.  So the list a call returns starts with the list the
    installer came with, and when [Install] is called again on the same
    installer, the list of the second call starts with every entry of the
    list of the first. *)
Theorem Install_accumulates i w :
  let first := Install Version env_Get key updaterList gvrOf applierFor i w in
  let i1 := snd (fst first) in
  let second := Install Version env_Get key updaterList gvrOf applierFor i1
                  (snd first) in
  fst (fst first) = errorsOf i1
  /\ errorsOf i `prefix_of` fst (fst first)
  /\ fst (fst first) `prefix_of` fst (fst second)
  /\ (forall (e : installErrors) (x : error) (xs : list error),
        errors (snd (addError e x)) = errors e ++ [x]
        /\ errors (snd (addErrors e xs)) = errors e ++ xs).
Proof.
  intros first i1 second.
  destruct (Install_grows Version env_Get key updaterList gvrOf applierFor i w)
    as [Hret Hpre].
  destruct (Install_grows Version env_Get key updaterList gvrOf applierFor i1
              (snd first)) as [_ Hpre2].
  split; [exact Hret|]. split; [exact Hpre|]. split.
  - fold first in Hret. fold i1 in Hret. rewrite Hret. exact Hpre2.
  - intros e x xs. split; [apply addError_errors|apply addErrors_errors].
Qed.

(** C6, as the code has it.  If the configuration source returns an error,
    [Install] appends one entry, that error wrapped with the message
    "simple installer failed", to the error list of the installer, returns
    the list and stops: the world is as the configuration source left it,
    and the configuration source is the only collaborator called (no
    artifact listing, transformer, updater or apply call).  The returned
    list has the one element when the installer came with an empty list, as
    a newly built one does. *)
Theorem Install_config_error i getter w name w0 config cause w1 :
  configGetter i = Some getter ->
  env_Get key w = (name, w0) ->
  getter name w0 = ((config, Some cause), w1) ->
  let errs := errorsOf i ++ [Some (withStack cause "simple installer failed")] in
  Install Version env_Get key updaterList gvrOf applierFor i w
    = ((errs, setErrors i {| errors := errs |}), w1)
  /\ trace Version env_Get key updaterList gvrOf applierFor i w = [EvConfig name]
  /\ (errorsOf i = [] ->
      fst (fst (Install Version env_Get key updaterList gvrOf applierFor i w))
        = [Some (withStack cause "simple installer failed")]).
Proof.
  intros Hgetter Henv Hconfig errs.
  assert (Hrun : Install Version env_Get key updaterList gvrOf applierFor i w
                 = ((errs, setErrors i {| errors := errs |}), w1)).
  { unfold Install, bind. now rewrite Hgetter, Henv, Hconfig. }
  split; [exact Hrun|]. split.
  - unfold trace, Install, bind, spyInstaller. cbn [configGetter].
    rewrite Hgetter. cbn. unfold lifted, noted. now rewrite Henv, Hconfig.
  - intros Hempty. rewrite Hrun. cbn. unfold errs. now rewrite Hempty.
Qed.

End InstallClaims.

Lemma Install_config_error_witness :
  let cause := Errorf "configmaps not found" in
  let i := Fake.installer Fake.config070 (Some cause) [Fake.template "a" []] [] in
  let errs := errorsOf i ++ [Some (withStack cause "simple installer failed")] in
  Fake.Install i Fake.emptyCluster
    = ((errs, setErrors i {| errors := errs |}), Fake.emptyCluster)
  /\ Fake.trace i Fake.emptyCluster = [EvConfig "install-config"]
  /\ (errorsOf i = [] ->
      fst (fst (Fake.Install i Fake.emptyCluster))
        = [Some (withStack cause "simple installer failed")]).
Proof.
  intros cause i errs.
  apply (Install_config_error Fake.version Fake.env_Get
           "OPENEBS_IO_INSTALL_CONFIG_NAME" Fake.WithInstallUnstructuredUpdaterList
           Fake.GroupVersionResourceFromGVK Fake.applier i
           (fun _ => ret (Fake.config070, Some cause)) Fake.emptyCluster
           "install-config" Fake.emptyCluster Fake.config070 cause
           Fake.emptyCluster);
    reflexivity.
Defined.

(** The returned list is not always of one element: the configuration
    source fails at both of two [Install] calls on one installer, and the
    second call returns two entries. *)
Lemma second_Install_returns_two_entries :
  let cause := Errorf "configmaps not found" in
  let i := Fake.installer Fake.config070 (Some cause) [Fake.template "a" []] [] in
  let first := Fake.Install i Fake.emptyCluster in
  let second := Fake.Install (snd (fst first)) (snd first) in
  fst (fst first) = [Some (withStack cause "simple installer failed")]
  /\ fst (fst second) = [Some (withStack cause "simple installer failed");
                         Some (withStack cause "simple installer failed")]
  /\ length (fst (fst second)) <> 1.
Proof. vm_compute. repeat split. discriminate. Qed.

(** C2 at a failing input.  One entry of version 0.7.0 and three instances,
    of which the second has a blank name and fails its apply.  [Install]
    calls apply for all three, in order, and returns three entries, one for
    each apply: nil for the first and the third, the error of the second in
    between.  With the two valid instances alone every apply succeeds, and
    the returned list is two nil entries, not the empty list. *)
Theorem Install_adds_entry_for_every_apply :
  let a := Fake.template "a" [] in
  let blank := Fake.template " " [] in
  let b := Fake.template "b" [] in
  let inNamespace (u : Unstructured) :=
    {| apiVersion := apiVersion u; kind := kind u; name := name u;
       namespace := "openebs"; content := content u |} in
  let mixed := Fake.installer Fake.config070 None [a; blank; b] [] in
  let valid := Fake.installer Fake.config070 None [a; b] [] in
  fst (fst (Fake.Install mixed Fake.emptyCluster))
    = [None;
       Some (withStack (Errorf "missing resource name: failed to get resource")
               "failed to apply resource ' '");
       None]
  /\ List.filter isApply (Fake.trace mixed Fake.emptyCluster)
     = [EvApply Fake.castemplates "openebs" (Some (inNamespace a));
        EvApply Fake.castemplates "openebs" (Some (inNamespace blank));
        EvApply Fake.castemplates "openebs" (Some (inNamespace b))]
  /\ fst (fst (Fake.Install valid Fake.emptyCluster)) = [None; None].
Proof. vm_compute. repeat split. Qed.

(** * Further properties of the applier *)

Lemma calls_shape {W} (options : ResourceApplyOptions W) obj subresources (w : W) :
  calls options obj subresources w = []
  \/ exists o, obj = Some o
       /\ (calls options obj subresources w
             = [CallGet (GetName o) GetOptions_zero []]
           \/ calls options obj subresources w
             = [CallGet (GetName o) GetOptions_zero [];
                CallCreate obj subresources]).
Proof.
  destruct obj as [o|]; [|left; apply calls_nil_object].
  destruct (Getter options) as [getter|] eqn:Hg;
    [|left; unfold calls, newResourceApplier, spyOptions; now rewrite Hg].
  destruct (Creator options) as [creator|] eqn:Hc;
    [|left; unfold calls, newResourceApplier, spyOptions; now rewrite Hg, Hc].
  destruct (Updater options) as [updater|] eqn:Hu;
    [|left; unfold calls, newResourceApplier, spyOptions; now rewrite Hg, Hc, Hu].
  destruct (getter (GetName o) GetOptions_zero [] w) as [[r e] w1] eqn:Hget.
  right. exists o. split; [reflexivity|].
  rewrite (calls_run _ _ _ _ _ _ _ _ _ _ Hg Hc Hu Hget).
  destruct (IsNotFound e); [now right|now left].
Qed.

(** X1.  The primitives an apply call invokes, for any options, object and
    world: none at all, or get alone, or get and then create, with get on
    the name of the object, default options and no subresources, and create
    on the object and the subresources of the apply call.  The updater is
    never invoked. *)
Theorem apply_never_updates {W} (options : ResourceApplyOptions W)
  obj subresources (w : W) :
  (calls options obj subresources w = []
   \/ exists o, obj = Some o
        /\ (calls options obj subresources w
              = [CallGet (GetName o) GetOptions_zero []]
            \/ calls options obj subresources w
              = [CallGet (GetName o) GetOptions_zero [];
                 CallCreate obj subresources]))
  /\ (forall c, c ∈ calls options obj subresources w -> isUpdate c = false).
Proof.
  pose proof (calls_shape options obj subresources w) as Hshape.
  split; [exact Hshape|].
  intros c Hc. apply list_elem_of_In in Hc.
  destruct Hshape as [H|(o & _ & [H|H])]; rewrite H in Hc; simpl in Hc.
  - contradiction.
  - destruct Hc as [<-|[]]. reflexivity.
  - destruct Hc as [<-|[<-|[]]]; reflexivity.
Qed.

(** X2.  When the client of the store cannot be had, the primitives of
    [NewResourceCreator], [NewResourceGetter] (on a name that is not blank)
    and [NewResourceUpdater] return a nil resource and the client error
    wrapped with their own message, whatever the client would have done.
    The applier then returns the error of its getter wrapped once more: the
    wrapping hides a not-found status of the cause, so no create follows. *)
Theorem primitives_without_client {W} (dyn : M W (DynamicInterface W * error))
  gvr namespace o subresources (w w1 : W) d cause :
  String.length (TrimSpace (GetName o)) <> 0 ->
  dyn w = ((d, Some cause), w1) ->
  NewResourceGetter dyn gvr namespace (GetName o) GetOptions_zero [] w
    = ((None, Some (withStack cause
                      ("failed to get resource '" +:+ GetName o +:+ "'"))), w1)
  /\ NewResourceCreator dyn gvr namespace (Some o) subresources w
    = ((None, Some (withStack cause "failed to create resource")), w1)
  /\ NewResourceUpdater dyn gvr namespace (Some o) subresources w
    = ((None, Some (withStack cause
                      ("failed to update resource '" +:+ GetName o +:+ "'"))), w1)
  /\ NewResourceApplier dyn gvr namespace (Some o) subresources w
    = ((None, Some (withStack
                      (withStack cause
                         ("failed to get resource '" +:+ GetName o +:+ "'"))
                      ("failed to apply resource '" +:+ GetName o +:+ "'"))), w1).
Proof.
  intros Hname Hdyn.
  assert (Hget : NewResourceGetter dyn gvr namespace (GetName o) GetOptions_zero [] w
    = ((None, Some (withStack cause
                      ("failed to get resource '" +:+ GetName o +:+ "'"))), w1)).
  { unfold NewResourceGetter, bind.
    destruct (String.length (TrimSpace (GetName o))); [congruence|].
    cbn. now rewrite Hdyn. }
  split; [exact Hget|]. split; [|split].
  - unfold NewResourceCreator, bind. now rewrite Hdyn.
  - unfold NewResourceUpdater, bind. now rewrite Hdyn.
  - unfold NewResourceApplier.
    now rewrite (newResourceApplier_run
                   (NewResourceApplyOptions dyn gvr namespace)
                   _ _ _ o subresources w _ _ _ eq_refl eq_refl eq_refl Hget).
Qed.

Lemma primitives_without_client_witness :
  let o := Fake.template "a" [] in
  let cause := Fake.notFound "kubeconfig" in
  let c := {| Fake.objects := ∅; Fake.clientError := Some cause |} in
  NewResourceGetter Fake.NewDynamicGetter Fake.castemplates "openebs"
    (GetName o) GetOptions_zero [] c
    = ((None, Some (withStack cause "failed to get resource 'a'")), c)
  /\ NewResourceCreator Fake.NewDynamicGetter Fake.castemplates "openebs"
       (Some o) [] c
    = ((None, Some (withStack cause "failed to create resource")), c)
  /\ NewResourceUpdater Fake.NewDynamicGetter Fake.castemplates "openebs"
       (Some o) [] c
    = ((None, Some (withStack cause "failed to update resource 'a'")), c)
  /\ NewResourceApplier Fake.NewDynamicGetter Fake.castemplates "openebs"
       (Some o) [] c
    = ((None, Some (withStack (withStack cause "failed to get resource 'a'")
                      "failed to apply resource 'a'")), c).
Proof.
  intros o cause c.
  apply (primitives_without_client Fake.NewDynamicGetter Fake.castemplates
           "openebs" o [] c c Fake.dynamic cause).
  - vm_compute. discriminate.
  - reflexivity.
Defined.

(** X3.  Against the in-memory store, an apply call never changes or removes an
    object the store holds: the store after the call contains the store
    before it.  The one name under which the store can differ afterwards is
    the name of the applied object, when it was absent and is now held. *)
Theorem apply_keeps_stored_objects gvr namespace obj subresources
  (c : Fake.Cluster) :
  let c1 := snd (Fake.applier gvr namespace obj subresources c) in
  Fake.objects c ⊆ Fake.objects c1
  /\ (forall k, Fake.objects c1 !! k <> Fake.objects c !! k ->
        exists o, obj = Some o
          /\ k = Fake.key gvr namespace (GetName o)
          /\ Fake.objects c !! k = None
          /\ Fake.objects c1 !! k = Some o).
Proof.
  destruct obj as [o|]; cbn zeta.
  - rewrite applier_cases.
    destruct (Nat.eqb (String.length (TrimSpace (GetName o))) 0);
      [now split|].
    destruct (Fake.clientError c); [now split|].
    destruct (Fake.objects c !! Fake.key gvr namespace (GetName o)) eqn:Hlook;
      [now split|].
    cbn. split; [now apply insert_subseteq|].
    intros k Hk. exists o.
    destruct (decide (k = Fake.key gvr namespace (GetName o))) as [->|Hne].
    + now rewrite lookup_insert_eq.
    + now rewrite lookup_insert_ne in Hk.
  - now split.
Qed.

(** * Further properties of the mutation pipeline *)

(** X4.  What every updater of a list keeps, the updater made of the list
    keeps: a property of the instance and the world that holds before and
    is preserved by each element holds of what the composed updater
    returns. *)
Theorem UnstructuredUpdater_preserves {W O} (P : O -> W -> Prop)
  (updaters : list (UnstructuredMiddleware W O)) (given : O) (w : W) :
  (forall u, u ∈ updaters ->
     forall x v, P x v -> P (fst (u x v)) (snd (u x v))) ->
  P given w ->
  P (fst (UnstructuredUpdater updaters given w))
    (snd (UnstructuredUpdater updaters given w)).
Proof.
  revert given w. induction updaters as [|u rest IH]; intros given w Hall HP.
  - exact HP.
  - cbn. unfold bind.
    pose proof (Hall u (list_elem_of_here u rest) given w HP) as Hu.
    destruct (u given w) as [given' w']. cbn in Hu.
    apply IH; [|exact Hu].
    intros u' Hin. apply Hall. now apply list_elem_of_further.
Qed.

Lemma UnstructuredUpdater_preserves_witness :
  let install := {| Fake.version := "0.7.0"; Fake.setNamespace := "openebs" |} in
  let P := fun (u : Unstructured) (c : Fake.Cluster) => GetName u = "a" in
  let given := Fake.template "a" [] in
  P (fst (UnstructuredUpdater [Fake.updateUnstructuredNamespace install]
            given Fake.emptyCluster))
    (snd (UnstructuredUpdater [Fake.updateUnstructuredNamespace install]
            given Fake.emptyCluster)).
Proof.
  intros install P given.
  apply (UnstructuredUpdater_preserves P
           [Fake.updateUnstructuredNamespace install] given Fake.emptyCluster).
  - intros u Hu x v HP. apply list_elem_of_In in Hu. simpl in Hu.
    destruct Hu as [<-|[]]. exact HP.
  - reflexivity.
Defined.

Lemma foldl_commuting {O} (fs gs : list (O -> O)) :
  fs ≡ₚ gs ->
  (forall f g, f ∈ fs -> g ∈ fs -> forall x, f (g x) = g (f x)) ->
  forall given, foldl (fun acc f => f acc) given fs
                = foldl (fun acc f => f acc) given gs.
Proof.
  induction 1 as [|f fs gs Hperm IH|f g fs|fs gs hs Hfg IH1 Hgh IH2];
    intros Hcomm given.
  - reflexivity.
  - cbn. apply IH. intros f' g' Hf Hg.
    apply Hcomm; now apply list_elem_of_further.
  - cbn. f_equal. apply Hcomm; in_list.
  - rewrite IH1 by exact Hcomm. apply IH2.
    intros f g Hf Hg. apply Hcomm; now rewrite Hfg.
Qed.

(** X5.  Updaters that only compute and that commute with each other can be
    listed in any order: two lists of them that are permutations of each
    other give updaters that return the same instance. *)
Theorem UnstructuredUpdater_commuting {W O} (fs gs : list (O -> O))
  (given : O) (w : W) :
  fs ≡ₚ gs ->
  (forall f g, f ∈ fs -> g ∈ fs -> forall x, f (g x) = g (f x)) ->
  UnstructuredUpdater (pureMiddleware <$> fs) given w
    = UnstructuredUpdater (pureMiddleware <$> gs) given w.
Proof.
  intros Hperm Hcomm. rewrite !UnstructuredUpdater_pure.
  now rewrite (foldl_commuting fs gs Hperm Hcomm given).
Qed.

Lemma UnstructuredUpdater_commuting_witness :
  let toNamespace (u : Unstructured) :=
    {| apiVersion := apiVersion u; kind := kind u; name := name u;
       namespace := "openebs"; content := content u |} in
  let labelled (u : Unstructured) :=
    {| apiVersion := apiVersion u; kind := kind u; name := name u;
       namespace := namespace u;
       content := ("openebs.io/version", "0.7.0") :: content u |} in
  UnstructuredUpdater (pureMiddleware <$> [toNamespace; labelled])
    (Fake.template "a" []) Fake.emptyCluster
  = UnstructuredUpdater (pureMiddleware <$> [labelled; toNamespace])
      (Fake.template "a" []) Fake.emptyCluster.
Proof.
  intros toNamespace labelled.
  apply (UnstructuredUpdater_commuting [toNamespace; labelled]
           [labelled; toNamespace] (Fake.template "a" []) Fake.emptyCluster).
  - apply perm_swap.
  - intros f g Hf Hg x.
    apply list_elem_of_In in Hf. apply list_elem_of_In in Hg.
    simpl in Hf, Hg.
    destruct Hf as [<-|[<-|[]]]; destruct Hg as [<-|[<-|[]]]; reflexivity.
Defined.

(** * Further properties of the installer *)

Section InstallLoops.
Context {W Entry ArtifactList U : Type}.
Variable Version : Entry -> string.
Variable env_Get : string -> M W string.
Variable key : string.
Variable updaterList : Entry -> list U -> list (UnstructuredMiddleware W Unstructured).
Variable gvrOf : Unstructured -> GroupVersionResource.
Variable applierFor : GroupVersionResource -> string -> ResourceApplier W.

Implicit Types (i : simpleInstaller W Entry ArtifactList U) (w : W).

Lemma setErrors_self i : setErrors i {| errors := errorsOf i |} = i.
Proof. destruct i as [? ? ? ? []]. reflexivity. Qed.

Lemma installAll_keeps (installs : list Entry) :
  forall i all w,
    exists errs,
      fst (fst (installAll Version updaterList i installs all w))
        = setErrors i {| errors := errs |}.
Proof.
  induction installs as [|install rest IH]; intros i all w.
  - exists (errorsOf i). cbn. now rewrite setErrors_self.
  - cbn [installAll]. unfold bind at 1.
    destruct (artifactLister i (Version install) w) as [[list err0] w0].
    destruct err0 as [x|].
    + destruct (IH (snd (addError' i (Wrapf (Some x)
                 ("simple installer failed to list artifacts for version '"
                    +:+ Version install +:+ "'")))) all w0) as [errs Heq].
      exists errs. exact Heq.
    + unfold bind at 1.
      destruct (transformer i list w0) as [[unstructs errs0] w1].
      unfold bind at 1.
      match goal with
      | |- context [overrideAll ?u ?j ?e ?us ?a ?x] =>
          destruct (overrideAll u j e us a x) as [all' w2]
      end.
      destruct (negb (Nat.eqb (length errs0) 0)).
      * destruct (IH (snd (addErrors' i errs0)) all' w2) as [errs Heq].
        exists errs. rewrite Heq. unfold addErrors'.
        now destruct (addErrors (installErrors_ i) errs0).
      * apply IH.
Qed.

(** The last loop is the run of the apply calls, one after the other, with
    their errors appended to the error list in that order. *)
Lemma applyAll_outcomes (all : list Unstructured) :
  forall i w,
    applyAll gvrOf applierFor i all w
    = (setErrors i {| errors := errorsOf i
                                 ++ fst (applyOutcomes gvrOf applierFor all w) |},
       snd (applyOutcomes gvrOf applierFor all w)).
Proof.
  induction all as [|unstruct rest IH]; intros i w.
  - cbn. unfold ret. cbn. now rewrite app_nil_r, setErrors_self.
  - cbn [applyAll applyOutcomes]. unfold bind, ret.
    destruct (applierFor (gvrOf unstruct) (GetNamespace unstruct)
                (Some unstruct) [] w) as [[res err0] w0].
    rewrite IH.
    destruct (applyOutcomes gvrOf applierFor rest w0) as [errs w1]. cbn.
    unfold errorsOf. cbn. now rewrite <- app_assoc.
Qed.

Lemma applyOutcomes_length (all : list Unstructured) :
  forall w, length (fst (applyOutcomes gvrOf applierFor all w)) = length all.
Proof.
  induction all as [|unstruct rest IH]; intros w; [reflexivity|].
  cbn [applyOutcomes]. unfold bind, ret.
  destruct (applierFor (gvrOf unstruct) (GetNamespace unstruct)
              (Some unstruct) [] w) as [[res err0] w0].
  specialize (IH w0).
  destruct (applyOutcomes gvrOf applierFor rest w0) as [errs w1].
  cbn in *. now rewrite IH.
Qed.

(** X6.  [Install] changes nothing of the installer but its error list: the
    receiver after the call is the receiver before it with the returned list
    as error list, so its collaborators and updaters are the ones it had. *)
Theorem Install_keeps_collaborators i w :
  let run := Install Version env_Get key updaterList gvrOf applierFor i w in
  snd (fst run) = setErrors i {| errors := fst (fst run) |}.
Proof.
  cbn zeta. unfold Install, bind, ret. destruct (configGetter i) as [getter|].
  - destruct (env_Get key w) as [name w0].
    destruct (getter name w0) as [[config err0] w1].
    destruct err0 as [x|]; [reflexivity|].
    destruct (installAll_keeps (Spec_Install config) i [] w1) as [errs Heq].
    destruct (installAll Version updaterList i (Spec_Install config) [] w1)
      as [[i1 all] w2].
    cbn in Heq. subst i1. rewrite applyAll_outcomes. reflexivity.
  - reflexivity.
Qed.

(** X7.  The loops of [Install] go through their lists element by element:
    running a loop over [xs ++ ys] is running it over [xs] and then over
    [ys] from the installer, the collected instances and the world that
    [xs] left.  So what an entry or an instance does to the run does not
    depend on those after it, and a failure stops none of them. *)
Theorem Install_loops_app (xs ys : list Entry) (us vs : list Unstructured)
  i (all : list Unstructured) w :
  installAll Version updaterList i (xs ++ ys) all w
    = (let '((i', all'), w') := installAll Version updaterList i xs all w in
       installAll Version updaterList i' ys all' w')
  /\ applyAll gvrOf applierFor i (us ++ vs) w
    = (let '(i', w') := applyAll gvrOf applierFor i us w in
       applyAll gvrOf applierFor i' vs w').
Proof.
  split.
  - revert i all w. induction xs as [|install rest IH]; intros i all w.
    + reflexivity.
    + cbn [app installAll]. unfold bind.
      destruct (artifactLister i (Version install) w) as [[list err0] w0].
      destruct err0 as [x|]; [apply IH|].
      destruct (transformer i list w0) as [[unstructs errs0] w1].
      match goal with
      | |- context [overrideAll ?u ?j ?e ?us ?a ?x] =>
          destruct (overrideAll u j e us a x) as [all' w2]
      end.
      apply IH.
  - revert i w. induction us as [|unstruct rest IH]; intros i w.
    + reflexivity.
    + cbn [app applyAll]. unfold bind.
      destruct (applierFor (gvrOf unstruct) (GetNamespace unstruct)
                  (Some unstruct) [] w) as [[res err0] w0].
      apply IH.
Qed.

(** X8.  Once the configuration is read, the list [Install] returns is the
    error list as the loop over the entries left it, followed by one entry
    for each instance that loop collected: the error of the apply call of
    the instance, nil when the apply succeeded.  The returned list is thus
    at least as long as the list of instances. *)
Theorem Install_entry_per_instance i getter w name w0 config w1 i1 all w2 :
  configGetter i = Some getter ->
  env_Get key w = (name, w0) ->
  getter name w0 = ((config, None), w1) ->
  installAll Version updaterList i (Spec_Install config) [] w1 = ((i1, all), w2) ->
  let outcomes := applyOutcomes gvrOf applierFor all w2 in
  Install Version env_Get key updaterList gvrOf applierFor i w
    = ((errorsOf i1 ++ fst outcomes,
        setErrors i1 {| errors := errorsOf i1 ++ fst outcomes |}),
       snd outcomes)
  /\ length (fst outcomes) = length all.
Proof.
  intros Hgetter Henv Hconfig Hall outcomes. split.
  - unfold Install, bind, ret. rewrite Hgetter, Henv, Hconfig, Hall.
    now rewrite applyAll_outcomes.
  - apply applyOutcomes_length.
Qed.

(** X9.  An empty configuration: [Install] adds nothing to the error list, leaves
    the installer as it is, and calls the configuration source only. *)
Theorem Install_empty_config i getter w name w0 config w1 :
  configGetter i = Some getter ->
  env_Get key w = (name, w0) ->
  getter name w0 = ((config, None), w1) ->
  Spec_Install config = [] ->
  Install Version env_Get key updaterList gvrOf applierFor i w
    = ((errorsOf i, i), w1)
  /\ trace Version env_Get key updaterList gvrOf applierFor i w = [EvConfig name].
Proof.
  intros Hgetter Henv Hconfig Hempty. split.
  - unfold Install, bind, ret. now rewrite Hgetter, Henv, Hconfig, Hempty.
  - unfold trace, Install, bind, spyInstaller. cbn [configGetter].
    rewrite Hgetter. cbn. unfold lifted, noted. rewrite Henv, Hconfig, Hempty.
    reflexivity.
Qed.

End InstallLoops.

Lemma Install_entry_per_instance_witness :
  let a := Fake.template "a" [] in
  let b := Fake.template "b" [] in
  let inNamespace (u : Unstructured) :=
    {| apiVersion := apiVersion u; kind := kind u; name := name u;
       namespace := "openebs"; content := content u |} in
  let i := Fake.installer Fake.config070 None [a; b] [] in
  let all := [inNamespace a; inNamespace b] in
  let outcomes := applyOutcomes Fake.GroupVersionResourceFromGVK Fake.applier
                    all Fake.emptyCluster in
  Fake.Install i Fake.emptyCluster
    = ((errorsOf i ++ fst outcomes,
        setErrors i {| errors := errorsOf i ++ fst outcomes |}),
       snd outcomes)
  /\ length (fst outcomes) = length all.
Proof.
  intros a b inNamespace i all outcomes.
  apply (Install_entry_per_instance Fake.version Fake.env_Get
           "OPENEBS_IO_INSTALL_CONFIG_NAME" Fake.WithInstallUnstructuredUpdaterList
           Fake.GroupVersionResourceFromGVK Fake.applier i
           (fun _ => ret (Fake.config070, None)) Fake.emptyCluster
           "install-config" Fake.emptyCluster Fake.config070 Fake.emptyCluster
           i all Fake.emptyCluster);
    reflexivity.
Defined.

Lemma Install_empty_config_witness :
  let config := {| Spec_Install := [] |} in
  let i := Fake.installer config None [Fake.template "a" []]
             [Some (Errorf "earlier")] in
  Fake.Install i Fake.emptyCluster = ((errorsOf i, i), Fake.emptyCluster)
  /\ Fake.trace i Fake.emptyCluster = [EvConfig "install-config"].
Proof.
  intros config i.
  apply (Install_empty_config Fake.version Fake.env_Get
           "OPENEBS_IO_INSTALL_CONFIG_NAME" Fake.WithInstallUnstructuredUpdaterList
           Fake.GroupVersionResourceFromGVK Fake.applier i
           (fun _ => ret (config, None)) Fake.emptyCluster
           "install-config" Fake.emptyCluster config Fake.emptyCluster);
    reflexivity.
Defined.

Section InstallEntries.
Context {W Entry ArtifactList U : Type}.
Variable Version : Entry -> string.
Variable env_Get : string -> M W string.
Variable key : string.
Variable updaterList : Entry -> list U -> list (UnstructuredMiddleware W Unstructured).
Variable gvrOf : Unstructured -> GroupVersionResource.
Variable applierFor : GroupVersionResource -> string -> ResourceApplier W.

Implicit Types (i : simpleInstaller W Entry ArtifactList U) (w : W).

Lemma runEach_length {A B} (f : A -> M W B) (xs : list A) :
  forall w, length (fst (runEach f xs w)) = length xs.
Proof.
  induction xs as [|x rest IH]; intros w; [reflexivity|].
  cbn [runEach]. unfold bind, ret. destruct (f x w) as [y w0].
  specialize (IH w0). destruct (runEach f rest w0) as [ys w1].
  cbn in *. now rewrite IH.
Qed.

(** X10.  The inner loop of [Install], for instances of any kind of
    reference (values, or addresses into a heap that the world holds): the
    updater made for the entry runs exactly once on each instance the
    transformer gave, first to last, each run from the world the run before
    it left; the references it returns are appended in that order to those
    collected before, one for each instance, and the world after the loop is
    the world after the last run.  The loop of the installer is this loop on
    the updaters of the installer. *)
Theorem overrideAll_appends (O : Type)
  (makeUpdaters : Entry -> list U -> list (UnstructuredMiddleware W O))
  (updaters : list U) (install : Entry) (unstructs all : list O) w :
  let finalUpdater := UnstructuredUpdater (makeUpdaters install updaters) in
  overrideEach makeUpdaters updaters install unstructs all w
    = (let (updated, w') := runEach finalUpdater unstructs w in
       (all ++ updated, w'))
  /\ length (fst (runEach finalUpdater unstructs w)) = length unstructs
  /\ (forall i (given collected : list Unstructured) v,
        overrideAll updaterList i install given collected v
        = overrideEach updaterList (unstructuredUpdaters i) install
            given collected v).
Proof.
  cbn zeta. split; [|split].
  - revert all w. induction unstructs as [|unstruct rest IH]; intros all w.
    + cbn. unfold ret. now rewrite app_nil_r.
    + cbn [overrideEach runEach]. unfold bind, ret.
      destruct (UnstructuredUpdater (makeUpdaters install updaters) unstruct w)
        as [u' w0].
      rewrite IH.
      destruct (runEach (UnstructuredUpdater (makeUpdaters install updaters))
                  rest w0) as [updated w1].
      now rewrite <- app_assoc.
  - apply runEach_length.
  - intros i given. induction given as [|unstruct rest IH];
      intros collected v; [reflexivity|].
    cbn [overrideAll overrideEach]. unfold bind.
    destruct (UnstructuredUpdater (updaterList install (unstructuredUpdaters i))
                unstruct v) as [u' v0].
    apply IH.
Qed.

(** The loop on addresses, with an updater that hands back one shared
    address whatever it is given, after writing there what it was given: the
    collected list holds that address twice, and the heap holds under it the
    instance written last. *)
Example overrideEach_shared_pointer :
  let heap : nat -> Unstructured :=
    fun l => Fake.template (if Nat.eqb l 1 then "a" else "b") [] in
  let shared : UnstructuredMiddleware (nat -> Unstructured) nat :=
    fun given h => (0, fun l => if Nat.eqb l 0 then h given else h l) in
  let run := overrideEach (fun (_ : unit) (_ : list unit) => [shared]) [] tt
               [1; 2] [] heap in
  fst run = [0; 0] /\ GetName (snd run 0) = "b".
Proof. split; reflexivity. Qed.

Lemma installAll_lister_fails (installs : list Entry) :
  forall i all w,
    (forall v w', snd (fst (artifactLister i v w')) <> None) ->
    exists errs,
      fst (installAll Version updaterList i installs all w)
        = (setErrors i {| errors := errorsOf i ++ errs |}, all)
      /\ length errs = length installs
      /\ Forall (fun e => e <> None) errs.
Proof.
  induction installs as [|install rest IH]; intros i all w Hfails.
  - exists []. cbn. rewrite app_nil_r, setErrors_self. repeat split. constructor.
  - cbn [installAll]. unfold bind.
    pose proof (Hfails (Version install) w) as Hx.
    destruct (artifactLister i (Version install) w) as [[list err0] w0].
    destruct err0 as [x|]; [|now cbn in Hx].
    destruct (IH (snd (addError' i (Wrapf (Some x)
               ("simple installer failed to list artifacts for version '"
                  +:+ Version install +:+ "'")))) all w0 Hfails)
      as (errs & Heq & Hlen & Hall).
    eexists (_ :: errs). split; [|split].
    + rewrite Heq. cbn. unfold errorsOf. cbn. now rewrite <- app_assoc.
    + cbn. now rewrite Hlen.
    + constructor; [discriminate|exact Hall].
Qed.

(** X11.  When the catalog has none of the versions the configuration asks for
    (the lister fails at every call), [Install] collects no instance, and
    the list it returns is the list the installer came with followed by one
    error for each entry of the configuration. *)
Theorem Install_unknown_versions i getter w name w0 config w1 :
  configGetter i = Some getter ->
  env_Get key w = (name, w0) ->
  getter name w0 = ((config, None), w1) ->
  (forall v w', snd (fst (artifactLister i v w')) <> None) ->
  snd (fst (installAll Version updaterList i (Spec_Install config) [] w1)) = []
  /\ exists errs,
       fst (fst (Install Version env_Get key updaterList gvrOf applierFor i w))
         = errorsOf i ++ errs
       /\ length errs = length (Spec_Install config)
       /\ Forall (fun e => e <> None) errs.
Proof.
  intros Hgetter Henv Hconfig Hfails.
  destruct (installAll_lister_fails (Spec_Install config) i [] w1 Hfails)
    as (errs & Heq & Hlen & Hall).
  split; [now rewrite Heq|].
  exists errs. split; [|now split].
  unfold Install, bind, ret. rewrite Hgetter, Henv, Hconfig.
  destruct (installAll Version updaterList i (Spec_Install config) [] w1)
    as [[i1 all] w2].
  cbn in Heq. injection Heq as -> ->. reflexivity.
Qed.

End InstallEntries.

Lemma Install_unknown_versions_witness :
  let unknown := Some (Errorf "version not registered") in
  let i : simpleInstaller Fake.Cluster Fake.Entry (list Unstructured)
            Fake.InstallUpdater :=
    {| configGetter := Some (fun _ => ret (Fake.config070, None));
       artifactLister := fun _ => ret ([], unknown);
       transformer := fun l => ret (l, []);
       unstructuredUpdaters := [Fake.updateUnstructuredNamespace];
       installErrors_ := {| errors := [] |} |} in
  snd (fst (installAll Fake.version Fake.WithInstallUnstructuredUpdaterList i
              (Spec_Install Fake.config070) [] Fake.emptyCluster)) = []
  /\ exists errs,
       fst (fst (Fake.Install i Fake.emptyCluster)) = errorsOf i ++ errs
       /\ length errs = length (Spec_Install Fake.config070)
       /\ Forall (fun e => e <> None) errs.
Proof.
  intros unknown i.
  apply (Install_unknown_versions Fake.version Fake.env_Get
           "OPENEBS_IO_INSTALL_CONFIG_NAME" Fake.WithInstallUnstructuredUpdaterList
           Fake.GroupVersionResourceFromGVK Fake.applier i
           (fun _ => ret (Fake.config070, None)) Fake.emptyCluster
           "install-config" Fake.emptyCluster Fake.config070 Fake.emptyCluster);
    try reflexivity.
  intros v w'. discriminate.
Defined.

Section NewInstaller.
Context {W Entry ArtifactList U ConfigMapGetter : Type}.
Variable Version : Entry -> string.
Variable env_Get : string -> M W string.
Variable key namespaceKey : string.
Variable updaterList : Entry -> list U -> list (UnstructuredMiddleware W Unstructured).
Variable gvrOf : Unstructured -> GroupVersionResource.
Variable applierFor : GroupVersionResource -> string -> ResourceApplier W.
Variable NewConfigMapGetter : string -> ConfigMapGetter.
Variable WithConfigMapConfigGetter :
  ConfigMapGetter -> option (string -> M W (InstallConfig Entry * error)).
Variable ListArtifactsByVersion : string -> M W (ArtifactList * error).
Variable TransformArtifactToUnstructuredList :
  ArtifactList -> M W (list Unstructured * list error).
Variable updateNamespace updateLabels updateAnnotations : U.

(** X12.  The first [Install] of an installer that [SimpleInstaller] built, when
    the configuration cannot be had: the returned list has exactly one
    element, the error of the missing configuration getter when there is
    none, and otherwise the error of the configuration source wrapped with
    "simple installer failed". *)
Theorem new_installer_without_config w i w0 :
  SimpleInstaller env_Get namespaceKey NewConfigMapGetter
    WithConfigMapConfigGetter ListArtifactsByVersion
    TransformArtifactToUnstructuredList updateNamespace updateLabels
    updateAnnotations w = (i, w0) ->
  let returned :=
    fst (fst (Install Version env_Get key updaterList gvrOf applierFor i w0)) in
  errorsOf i = []
  /\ (configGetter i = None ->
      returned = [Some (Errorf "nil config getter: simple installer failed")])
  /\ (forall getter name w1 config cause w2,
        configGetter i = Some getter ->
        env_Get key w0 = (name, w1) ->
        getter name w1 = ((config, Some cause), w2) ->
        returned = [Some (withStack cause "simple installer failed")]).
Proof.
  unfold SimpleInstaller, bind, ret.
  destruct (env_Get namespaceKey w) as [namespace w'].
  intros [= <- <-]. cbn zeta. split; [reflexivity|]. split.
  - intros Hnone. unfold Install. cbn [configGetter] in *. now rewrite Hnone.
  - intros getter name w1 config cause w2 Hgetter Henv Hconfig.
    unfold Install, bind. cbn [configGetter] in *.
    now rewrite Hgetter, Henv, Hconfig.
Qed.

End NewInstaller.

Lemma new_installer_without_config_witness :
  let cause := Errorf "configmaps not found" in
  let build :=
    SimpleInstaller Fake.env_Get "OPENEBS_IO_INSTALL_CONFIG_NAMESPACE"
      (fun namespace : string => namespace)
      (fun _ => Some (fun _ => ret (Fake.config070, Some cause)))
      (fun _ => ret ([Fake.template "a" []], None))
      (fun l => ret (l, []))
      Fake.updateUnstructuredNamespace Fake.updateUnstructuredNamespace
      Fake.updateUnstructuredNamespace Fake.emptyCluster in
  let i := fst build in
  let returned := fst (fst (Fake.Install i (snd build))) in
  errorsOf i = []
  /\ (configGetter i = None ->
      returned = [Some (Errorf "nil config getter: simple installer failed")])
  /\ (forall getter name w1 config cause' w2,
        configGetter i = Some getter ->
        Fake.env_Get "OPENEBS_IO_INSTALL_CONFIG_NAME" (snd build) = (name, w1) ->
        getter name w1 = ((config, Some cause'), w2) ->
        returned = [Some (withStack cause' "simple installer failed")]).
Proof.
  intros cause build i returned.
  apply (new_installer_without_config Fake.version Fake.env_Get
           "OPENEBS_IO_INSTALL_CONFIG_NAME" "OPENEBS_IO_INSTALL_CONFIG_NAMESPACE"
           Fake.WithInstallUnstructuredUpdaterList
           Fake.GroupVersionResourceFromGVK Fake.applier
           (fun namespace : string => namespace)
           (fun _ => Some (fun _ => ret (Fake.config070, Some cause)))
           (fun _ => ret ([Fake.template "a" []], None))
           (fun l => ret (l, []))
           Fake.updateUnstructuredNamespace Fake.updateUnstructuredNamespace
           Fake.updateUnstructuredNamespace Fake.emptyCluster i (snd build)).
  reflexivity.
Defined.

(** * The resource types of the artifacts *)

Lemma updateEach_sets (gvr : GroupVersionResource)
  (gvrUpdate : Registrar.ArtifactMiddleware) (given : list nat) :
  (forall a h,
     gvrUpdate a h
     = (a, fun l => if Nat.eqb l a
                    then {| Registrar.Doc := Registrar.Doc (h l);
                            Registrar.GroupVersionResource_ := gvr |}
                    else h l)) ->
  forall (updated : list nat) (h : Registrar.Heap),
    fst (Registrar.updateEach gvrUpdate given updated h) = updated ++ given
    /\ forall l,
         snd (Registrar.updateEach gvrUpdate given updated h) l
         = if bool_decide (l ∈ given)
           then {| Registrar.Doc := Registrar.Doc (h l);
                   Registrar.GroupVersionResource_ := gvr |}
           else h l.
Proof.
  intros Hupdate. induction given as [|a rest IH]; intros updated h.
  - cbn. rewrite app_nil_r. split; [reflexivity|]. intros l.
    rewrite bool_decide_eq_false_2; [reflexivity|]. apply not_elem_of_nil.
  - cbn [Registrar.updateEach]. unfold bind. rewrite Hupdate.
    destruct (IH (updated ++ [a])
                (fun l => if Nat.eqb l a
                          then {| Registrar.Doc := Registrar.Doc (h l);
                                  Registrar.GroupVersionResource_ := gvr |}
                          else h l)) as [Hlist Hheap].
    split.
    + rewrite Hlist. now rewrite <- app_assoc.
    + intros l. rewrite Hheap.
      destruct (Nat.eqb_spec l a) as [->|Hne].
      * rewrite (bool_decide_eq_true_2 (a ∈ a :: rest)) by apply list_elem_of_here.
        now destruct (bool_decide (a ∈ rest)).
      * destruct (decide (l ∈ rest)) as [Hin|Hnin].
        -- rewrite !bool_decide_eq_true_2; [reflexivity| |exact Hin].
           now apply list_elem_of_further.
        -- rewrite !bool_decide_eq_false_2; [reflexivity| |exact Hnin].
           intros Hin. apply elem_of_cons in Hin as [?|?]; congruence.
Qed.

(** X13.  The two list updaters return the pointers they were given, in the same
    order, and write through them: afterwards every artifact of the list has
    the resource type of CAS templates (of run tasks, for the second
    updater) and the document it had, and every artifact outside the list is
    as it was.  The caller's own list thus sees the new resource types. *)
Theorem list_updaters_set_resource_type (given : list nat) (h : Registrar.Heap) :
  let cas := Registrar.WithGVRCasTemplateListUpdaterFor070 given h in
  let run := Registrar.WithGVRRunTaskListUpdaterFor070 given h in
  fst cas = given
  /\ fst run = given
  /\ (forall l,
        snd cas l = if bool_decide (l ∈ given)
                    then {| Registrar.Doc := Registrar.Doc (h l);
                            Registrar.GroupVersionResource_ := Registrar.castemplates |}
                    else h l)
  /\ (forall l,
        snd run l = if bool_decide (l ∈ given)
                    then {| Registrar.Doc := Registrar.Doc (h l);
                            Registrar.GroupVersionResource_ := Registrar.runtasks |}
                    else h l).
Proof.
  cbn zeta.
  destruct (updateEach_sets Registrar.castemplates
              Registrar.WithGVRCasTemplateUpdaterFor070 given
              (fun _ _ => eq_refl) [] h) as [Hc1 Hc2].
  destruct (updateEach_sets Registrar.runtasks
              Registrar.WithGVRRunTaskUpdaterFor070 given
              (fun _ _ => eq_refl) [] h) as [Hr1 Hr2].
  repeat split; assumption.
Qed.

(** X14.  The resource type of an artifact is the one written last: after the
    CAS template updater and then the run task updater on the same list,
    every artifact is as after the run task updater alone, and running an
    updater twice is running it once. *)
Theorem list_updaters_last_wins (given : list nat) (h : Registrar.Heap) (l : nat) :
  let cas := Registrar.WithGVRCasTemplateListUpdaterFor070 given h in
  let run := Registrar.WithGVRRunTaskListUpdaterFor070 given h in
  snd (Registrar.WithGVRRunTaskListUpdaterFor070 (fst cas) (snd cas)) l = snd run l
  /\ snd (Registrar.WithGVRRunTaskListUpdaterFor070 (fst run) (snd run)) l = snd run l
  /\ snd (Registrar.WithGVRCasTemplateListUpdaterFor070 (fst cas) (snd cas)) l
     = snd cas l.
Proof.
  cbn zeta. unfold Registrar.WithGVRCasTemplateListUpdaterFor070,
    Registrar.WithGVRRunTaskListUpdaterFor070.
  pose proof (updateEach_sets Registrar.castemplates
                Registrar.WithGVRCasTemplateUpdaterFor070 given
                (fun _ _ => eq_refl) []) as Hcas.
  pose proof (updateEach_sets Registrar.runtasks
                Registrar.WithGVRRunTaskUpdaterFor070 given
                (fun _ _ => eq_refl) []) as Hrun.
  destruct (Hcas h) as [Hc1 Hc2]. destruct (Hrun h) as [Hr1 Hr2].
  cbn [app] in Hc1, Hr1. rewrite Hc1, Hr1.
  destruct (Hrun (snd (Registrar.updateEach
                         Registrar.WithGVRCasTemplateUpdaterFor070 given [] h)))
    as [_ Hrc].
  destruct (Hrun (snd (Registrar.updateEach
                         Registrar.WithGVRRunTaskUpdaterFor070 given [] h)))
    as [_ Hrr].
  destruct (Hcas (snd (Registrar.updateEach
                         Registrar.WithGVRCasTemplateUpdaterFor070 given [] h)))
    as [_ Hcc].
  rewrite Hrc, Hrr, Hcc, !Hc2, !Hr2.
  now destruct (bool_decide (l ∈ given)).
Qed.
